(** * inseq: the attribution-model base class

    A shallow embedding of [inseq/models/attribution_model.py]: the
    abstract [AttributionModel] wrapper that binds a generative model to a
    pluggable feature-attribution method, and the module-level [load]
    factory.

    Python objects are mutable and methods may raise, so every method is a
    computation in a small state-and-exception monad [Py] over a [World]
    holding the fields of [self], an allocation counter for freshly
    constructed objects, and the chronological log of the calls made on
    the collaborators (the attribution method and the concrete adapter). *)

From stdpp Require Import base strings list gmap pretty.

(** ** Python values and keyword bags *)

(** The scalar values that travel in a [**kwargs] bag. *)
Inductive PyVal :=
  | PyNone
  | PyBool (b : bool)
  | PyInt (z : Z)
  | PyStr (s : string).

#[global] Instance PyVal_eq_dec : EqDecision PyVal.
Proof. solve_decision. Defined.

(** Truth-value testing of a Python string: only [""] is false. *)
Definition str_truthy (s : string) : bool :=
  match s with
  | EmptyString => false
  | String _ _ => true
  end.

(** Python's truth-value testing ([if v:]). *)
Definition truthy (v : PyVal) : bool :=
  match v with
  | PyNone => false
  | PyBool b => b
  | PyInt z => negb (Z.eqb z 0)
  | PyStr s => str_truthy s
  end.

(** An [Optional[str]] under [if method:]. *)
Definition opt_str_truthy (o : option string) : bool :=
  match o with
  | None => false
  | Some s => str_truthy s
  end.

(** [d.pop(key, dflt)] on a keyword bag: the value and the remaining bag. *)
Definition dict_pop (key : string) (dflt : PyVal) (d : gmap string PyVal)
  : PyVal * gmap string PyVal :=
  (default dflt (d !! key), delete key d).

(** [d.update(e)]: the entries of [e] win. *)
Definition dict_update (d e : gmap string PyVal) : gmap string PyVal := e ∪ d.

(** A call [f(..., k=v, **d)] gives the keyword [k] twice when [d] holds
    it too.  [explicit] lists the keywords written out at the call
    site. *)
Definition splat_clashes (explicit : list string) (d : gmap string PyVal)
  : bool :=
  existsb (λ k, bool_decide (is_Some (d !! k))) explicit.

(** ** The data model *)

(** [TextInput]: one string or a sequence of strings. *)
Inductive TextInput :=
  | Single (s : string)
  | Many (l : list string).

#[global] Instance TextInput_eq_dec : EqDecision TextInput.
Proof. solve_decision. Defined.

(** [if texts:] on a [TextInput]: the empty string and the empty sequence
    are both false. *)
Definition texts_truthy (t : TextInput) : bool :=
  match t with
  | Single s => str_truthy s
  | Many [] => false
  | Many (_ :: _) => true
  end.

(** [[t] if isinstance(t, str) else t]. *)
Definition as_list (t : TextInput) : list string :=
  match t with
  | Single s => [s]
  | Many l => l
  end.

(** [if reference_texts:] once the references are normalised: [None] and
    the empty list are false. *)
Definition refs_truthy (r : option (list string)) : bool :=
  match r with
  | None | Some [] => false
  | Some (_ :: _) => true
  end.

(** [OneOrMoreFeatureAttributionSequenceOutputs]: a single result object or
    a list of them. *)
Inductive OneOrMore (A : Type) :=
  | One (a : A)
  | Several (l : list A).
Arguments One {A} a.
Arguments Several {A} l.

(** A [FeatureAttribution] object: the name of the method it was loaded for
    and the identity of the object.  Such an object defines neither
    [__bool__] nor [__len__], so it is true under [if]. *)
Record FeatureAttribution := {
  method_name : string;
  obj_id : nat
}.

#[global] Instance FeatureAttribution_eq_dec : EqDecision FeatureAttribution.
Proof. solve_decision. Defined.

(** The exceptions of [inseq.utils] this module raises, and the
    [TypeError] with which Python refuses a call that gives one keyword
    twice. *)
Inductive Exn :=
  | MissingAttributionMethodError
  | LengthMismatchError (msg : string)
  | TypeError.

(** How a call ends. *)
Inductive Outcome (A : Type) :=
  | Return (a : A)
  | Raise (e : Exn).
Arguments Return {A} a.
Arguments Raise {A} e.

Definition is_length_mismatch {A} (o : Outcome A) : bool :=
  match o with
  | Raise (LengthMismatchError _) => true
  | _ => false
  end.

(** [torch.device("cuda:0" if torch.cuda.is_available() else "cpu")]. *)
Inductive Device := Cuda0 | Cpu.

(** The keyword bag of [attribute].  The entries [generation_args] and
    [attribution_args] are themselves mappings (they are splatted with
    [**] and updated in place), the others are scalars. *)
Record AttributeKwargs := {
  generation_args : option (gmap string PyVal);
  attribution_args : option (gmap string PyVal);
  other_kwargs : gmap string PyVal
}.

(** [kwargs.pop("generation_args", {})]. *)
Definition pop_generation_args (kw : AttributeKwargs)
  : gmap string PyVal * AttributeKwargs :=
  (default ∅ (generation_args kw),
   {| generation_args := None;
      attribution_args := attribution_args kw;
      other_kwargs := other_kwargs kw |}).

(** [kwargs.pop("attribution_args", {})]. *)
Definition pop_attribution_args (kw : AttributeKwargs)
  : gmap string PyVal * AttributeKwargs :=
  (default ∅ (attribution_args kw),
   {| generation_args := generation_args kw;
      attribution_args := None;
      other_kwargs := other_kwargs kw |}).

(** ** [format_input_texts] *)

Definition length_mismatch_msg (n_texts n_refs : nat) : string :=
  "Length mismatch for texts and reference_texts."
  +:+ "Input length: " +:+ pretty n_texts
  +:+ ", reference length: " +:+ pretty n_refs +:+ " ".

(** The method reads no field of [self]; it either raises or returns the
    two normalised arguments. *)
Definition format_input_texts (texts : TextInput) (ref_texts : option TextInput)
  : Outcome (list string * option (list string)) :=
  let texts := as_list texts in
  let reference_texts := as_list <$> ref_texts in
  if refs_truthy reference_texts
     && negb (length texts =? length (default [] reference_texts))%nat
  then Raise (LengthMismatchError
                (length_mismatch_msg (length texts)
                                     (length (default [] reference_texts))))
  else Return (texts, reference_texts).

(** ** The module-level factory *)

Section Factory.
(** [HuggingfaceModel] lives in [huggingface_model.py]; the factory only
    calls its constructor, whatever that yields. *)
Context {Adapter : Type}.
Variable HuggingfaceModel : string → option string → gmap string PyVal → Adapter.

Definition load (model_name_or_path : string)
    (attribution_method : option string) (kwargs : gmap string PyVal)
  : Adapter :=
  let '(from_hf, kwargs) := dict_pop "from_hf" PyNone kwargs in
  if truthy from_hf
  then HuggingfaceModel model_name_or_path attribution_method kwargs
  else HuggingfaceModel model_name_or_path attribution_method kwargs.

(** The static method [AttributionModel.load] forwards to [load]. *)
Definition AttributionModel_load (model_name_or_path : string)
    (attribution_method : option string) (kwargs : gmap string PyVal)
  : Adapter :=
  load model_name_or_path attribution_method kwargs.

(** The keyword bag a caller builds when it passes [from_hf=v], or leaves
    the option out ([None]). *)
Definition with_from_hf (v : option PyVal) (kwargs : gmap string PyVal)
  : gmap string PyVal :=
  match v with
  | Some x => <["from_hf" := x]> kwargs
  | None => delete "from_hf" kwargs
  end.
End Factory.

(** ** The object, its collaborators and the monad *)

(** What [prepare_and_attribute] receives as [texts]: the normalised list
    when the caller gave the references, the encoding otherwise. *)
Inductive Sources (BatchEncoding : Type) :=
  | SrcTexts (texts : list string)
  | SrcEncoding (enc : BatchEncoding).
Arguments SrcTexts {BatchEncoding} texts.
Arguments SrcEncoding {BatchEncoding} enc.

(** The abstract operations of [AttributionModel] that [attribute] calls;
    a concrete adapter implements them.  The collaborators are taken to
    return normally: what they return is a parameter, and an exception
    raised inside one of them is outside this development. *)
Class ModelAdapter (BatchEncoding : Type) := {
  encode_texts_result : list string → bool → BatchEncoding;
  generate_result : BatchEncoding → bool → gmap string PyVal → list string
}.

(** The part of the [FeatureAttribution] interface whose results flow back
    into [attribute]. *)
Class AttributionBackend (BatchEncoding Output : Type) := {
  get_attribution_args_result :
    FeatureAttribution → AttributeKwargs → gmap string PyVal;
  prepare_and_attribute_result :
    FeatureAttribution → Sources BatchEncoding → list string →
    option Z → option Z → gmap string PyVal → OneOrMore Output
}.

Section Model.
Context {BatchEncoding Output ModelHandle : Type}.
Context `{!ModelAdapter BatchEncoding}.
Context `{!AttributionBackend BatchEncoding Output}.
(** [torch.cuda.is_available()]. *)
Variable cuda_is_available : bool.

(** The calls made on the collaborators, in the order they happen. *)
Inductive Event :=
  | EvUnhook (m : FeatureAttribution)
  | EvLoad (m : FeatureAttribution)
  | EvEncodeTexts (texts : list string) (return_baseline : bool)
  | EvGenerate (enc : BatchEncoding) (return_generation_output : bool)
               (args : gmap string PyVal)
  | EvGetAttributionArgs (m : FeatureAttribution) (kwargs : AttributeKwargs)
  | EvPrepareAndAttribute (m : FeatureAttribution)
                          (texts : Sources BatchEncoding)
                          (reference_texts : list string)
                          (attr_pos_start attr_pos_end : option Z)
                          (args : gmap string PyVal)
  | EvModelTo (d : Device)
  | EvModelEval
  | EvModelZeroGrad.

(** The fields of [self] ([model] is [None] both when the attribute is
    [None] and when a subclass has not set it: [__init__] turns the
    second case into the first), the next free object identity, and the
    log. *)
Record World := {
  model : option ModelHandle;
  attribution_method : option FeatureAttribution;
  is_hooked : bool;
  device : option Device;
  next_obj : nat;
  trace : list Event
}.

Definition Py (A : Type) : Type := World → Outcome A * World.

#[global] Instance Py_ret : MRet Py := λ A a w, (Return a, w).
#[global] Instance Py_bind : MBind Py := λ A B f c w,
  match c w with
  | (Return a, w') => f a w'
  | (Raise e, w') => (Raise e, w')
  end.

Definition raise {A} (e : Exn) : Py A := λ w, (Raise e, w).

(** The call [f(..., k=v, **d)]: Python raises the [TypeError] ("got
    multiple values for keyword argument") at the call site, before [f]
    is entered, when [d] repeats a keyword written out there.  What [f]
    makes of the other keywords is left to [f]. *)
Definition splat {A} (explicit : list string) (d : gmap string PyVal)
    (call : Py A) : Py A :=
  if splat_clashes explicit d then raise TypeError else call.

Definition lift {A} (o : Outcome A) : Py A := λ w, (o, w).

Definition get_attribution_method_field : Py (option FeatureAttribution) :=
  λ w, (Return (attribution_method w), w).

Definition get_model_field : Py (option ModelHandle) :=
  λ w, (Return (model w), w).

Definition set_attribution_method (m : option FeatureAttribution) : Py unit :=
  λ w, (Return (),
        {| model := model w; attribution_method := m;
           is_hooked := is_hooked w; device := device w;
           next_obj := next_obj w; trace := trace w |}).

Definition set_is_hooked (b : bool) : Py unit :=
  λ w, (Return (),
        {| model := model w; attribution_method := attribution_method w;
           is_hooked := b; device := device w;
           next_obj := next_obj w; trace := trace w |}).

Definition set_device (d : Device) : Py unit :=
  λ w, (Return (),
        {| model := model w; attribution_method := attribution_method w;
           is_hooked := is_hooked w; device := Some d;
           next_obj := next_obj w; trace := trace w |}).

Definition emit (e : Event) : Py unit :=
  λ w, (Return (),
        {| model := model w; attribution_method := attribution_method w;
           is_hooked := is_hooked w; device := device w;
           next_obj := next_obj w; trace := trace w ++ [e] |}).

(** The world after the calls [evs] have been made. *)
Definition log (evs : list Event) (w : World) : World :=
  {| model := model w; attribution_method := attribution_method w;
     is_hooked := is_hooked w; device := device w;
     next_obj := next_obj w; trace := trace w ++ evs |}.

(** The events a run added to the log. *)
Definition events_since (w w' : World) : list Event :=
  drop (length (trace w)) (trace w').

Definition is_unhook_of (a : FeatureAttribution) (e : Event) : bool :=
  match e with
  | EvUnhook b => bool_decide (a = b)
  | _ => false
  end.

(** How often [a.unhook()] occurs in a log. *)
Definition unhook_count (a : FeatureAttribution) (evs : list Event) : nat :=
  length (filter (λ e, is_unhook_of a e = true) evs).

Definition is_encode_or_generate (e : Event) : bool :=
  match e with
  | EvEncodeTexts _ _ | EvGenerate _ _ _ => true
  | _ => false
  end.

(** *** Calls on the collaborators *)

(** Modelled from the spec: [FeatureAttribution.unhook], of
    [attr/feat/feature_attribution.py], detaches the instrumentation of
    the method from the wrapped model.  Only the call is recorded. *)
Definition unhook (m : FeatureAttribution) : Py unit := emit (EvUnhook m).

(** Modelled from the spec: [FeatureAttribution.load(name,
    attribution_model=self)], of [attr/feat/feature_attribution.py],
    constructs a method object for [name] bound to the model.  The object
    gets the next free identity. *)
Definition FeatureAttribution_load (name : string) : Py FeatureAttribution :=
  λ w,
    let m := {| method_name := name; obj_id := next_obj w |} in
    (Return m,
     {| model := model w; attribution_method := attribution_method w;
        is_hooked := is_hooked w; device := device w;
        next_obj := S (next_obj w); trace := trace w ++ [EvLoad m] |}).

Definition encode_texts (texts : list string) (return_baseline : bool)
  : Py BatchEncoding :=
  emit (EvEncodeTexts texts return_baseline);;
  mret (encode_texts_result texts return_baseline).

Definition generate (enc : BatchEncoding) (return_generation_output : bool)
    (args : gmap string PyVal) : Py (list string) :=
  emit (EvGenerate enc return_generation_output args);;
  mret (generate_result enc return_generation_output args).

Definition get_attribution_args (m : FeatureAttribution)
    (kwargs : AttributeKwargs) : Py (gmap string PyVal) :=
  emit (EvGetAttributionArgs m kwargs);;
  mret (get_attribution_args_result m kwargs).

Definition prepare_and_attribute (m : FeatureAttribution)
    (texts : Sources BatchEncoding) (reference_texts : list string)
    (attr_pos_start attr_pos_end : option Z) (args : gmap string PyVal)
  : Py (OneOrMore Output) :=
  emit (EvPrepareAndAttribute m texts reference_texts
                              attr_pos_start attr_pos_end args);;
  mret (prepare_and_attribute_result m texts reference_texts
                                     attr_pos_start attr_pos_end args).

(** *** The methods of [AttributionModel] *)

(** In the [else] branch [method] is a non-empty string, so [default]
    only unwraps it.  The flag is an [Optional[bool]] that is only tested
    for truth, [None] counting as [False]; it is a [bool] here. *)
Definition get_attribution_method (method : option string)
    (override_default_attribution : bool) : Py FeatureAttribution :=
  if negb (opt_str_truthy method) then
    current ← get_attribution_method_field;
    match current with
    | None => raise MissingAttributionMethodError
    | Some m => mret m
    end
  else
    current ← get_attribution_method_field;
    match current with
    | Some m => unhook m
    | None => mret ()
    end;;
    if override_default_attribution || negb (bool_decide (is_Some current))
    then
      m ← FeatureAttribution_load (default "" method);
      set_attribution_method (Some m);;
      mret m
    else
      FeatureAttribution_load (default "" method).

(** Move the model to the device and put it in evaluation mode. *)
Definition setup (kwargs : gmap string PyVal) : Py unit :=
  let d := if cuda_is_available then Cuda0 else Cpu in
  set_device d;;
  mdl ← get_model_field;
  match mdl with
  | Some _ => emit (EvModelTo d);; emit EvModelEval;; emit EvModelZeroGrad
  | None => mret ()
  end.

Definition __init__ (attribution_method : option string)
    (kwargs : gmap string PyVal) : Py unit :=
  set_attribution_method None;;
  set_is_hooked false;;
  m ← get_attribution_method attribution_method false;
  set_attribution_method (Some m);;
  setup kwargs.

Definition attribute (texts : TextInput) (reference_texts : option TextInput)
    (method : option string) (override_default_attribution : bool)
    (attr_pos_start attr_pos_end : option Z) (kwargs : AttributeKwargs)
  : Py (OneOrMore Output) :=
  if negb (texts_truthy texts) then mret (Several [])
  else
    '(texts, reference_texts) ← lift (format_input_texts texts reference_texts);
    '(texts, reference_texts, kwargs) ←
      (if negb (refs_truthy reference_texts) then
         enc ← encode_texts texts true;
         let '(generation_args, kwargs) := pop_generation_args kwargs in
         refs ← splat ["return_generation_output"] generation_args
                  (generate enc false generation_args);
         mret (SrcEncoding enc, refs, kwargs)
       else
         mret (SrcTexts texts, default [] reference_texts, kwargs));
    attribution_method ←
      get_attribution_method method override_default_attribution;
    let '(attribution_args, kwargs) := pop_attribution_args kwargs in
    extra ← get_attribution_args attribution_method kwargs;
    let attribution_args := dict_update attribution_args extra in
    splat ["attr_pos_start"; "attr_pos_end"] attribution_args
      (prepare_and_attribute attribution_method texts reference_texts
                             attr_pos_start attr_pos_end attribution_args).

End Model.

(** ** A small concrete adapter

    An encoding that simply remembers the texts and the baseline flag, a
    generator that echoes them, and an attribution backend that pairs each
    source with its reference.  The examples below run the methods on it. *)
Module Sample.

Definition Encoding : Type := list string * bool.
Definition Result : Type := string * string.

#[global] Instance adapter : ModelAdapter Encoding := {|
  encode_texts_result texts return_baseline := (texts, return_baseline);
  generate_result enc _ _ := (λ s, s +:+ "!") <$> enc.1
|}.

#[global] Instance backend : AttributionBackend Encoding Result := {|
  get_attribution_args_result _ kwargs := other_kwargs kwargs;
  prepare_and_attribute_result _ texts reference_texts _ _ _ :=
    Several (zip (match texts with
                  | SrcTexts l => l
                  | SrcEncoding enc => enc.1
                  end) reference_texts)
|}.

Definition saliency : FeatureAttribution :=
  {| method_name := "saliency"; obj_id := 0 |}.

Definition no_kwargs : AttributeKwargs :=
  {| generation_args := None; attribution_args := None; other_kwargs := ∅ |}.

(** A model that has no default attribution method. *)
Definition bare : @World Encoding unit :=
  {| model := Some (); attribution_method := None; is_hooked := false;
     device := Some Cpu; next_obj := 0; trace := [] |}.

(** A model whose default attribution method is [saliency]. *)
Definition with_saliency : @World Encoding unit :=
  {| model := Some (); attribution_method := Some saliency; is_hooked := false;
     device := Some Cpu; next_obj := 1; trace := [] |}.

(** A keyword bag with generation arguments, explicit attribution
    arguments, and one more keyword that the method extracts. *)
Definition tuned_kwargs : AttributeKwargs :=
  {| generation_args := Some {[ "max_length" := PyInt 8 ]};
     attribution_args := Some {[ "n_steps" := PyInt 50 ]};
     other_kwargs := {[ "n_steps" := PyInt 20 ]} |}.

(** A keyword bag whose generation arguments repeat the keyword that
    [attribute] writes out when it calls [generate]. *)
Definition clashing_kwargs : AttributeKwargs :=
  {| generation_args := Some {[ "return_generation_output" := PyBool true ]};
     attribution_args := None;
     other_kwargs := ∅ |}.

End Sample.

(** ** The claims under test, as predicates on a run

    Each predicate restates one sentence of the specification over the
    embedding, so that it can be evaluated at a concrete input. *)
Section Claimed.
Context {BatchEncoding Output ModelHandle : Type}.
Context `{!ModelAdapter BatchEncoding}.
Context `{!AttributionBackend BatchEncoding Output}.

Abbreviation World := (@World BatchEncoding ModelHandle).

(** "After [get_attribution_method("B", override_default=False)] the stored
    default remains A; the returned method is a new B instance; A is not
    unhooked." *)
Definition claimed_one_off_frame (w : World) (a : FeatureAttribution)
    (name : string) : Prop :=
  let '(r, w') := get_attribution_method (Some name) false w in
  (∃ b, r = Return b ∧ method_name b = name ∧ obj_id b = next_obj w)
  ∧ attribution_method w' = Some a
  ∧ unhook_count a (events_since w w') = 0.

(** "With a non-None method argument while a default is stored, the
    default's unhook is invoked before any new method is constructed." *)
Definition claimed_unhook_first (w : World) (a : FeatureAttribution)
    (method : string) (override_default_attribution : bool) : Prop :=
  ∃ evs,
    events_since w (get_attribution_method (Some method)
                      override_default_attribution w).2
    = EvUnhook a :: evs.

(** The length of a [TextInput] once a single string is normalised to a
    one-element sequence. *)
Definition normalised_length (t : TextInput) : nat := length (as_list t).

(** "[attribute] raises LengthMismatchError if and only if both texts and
    reference_texts are provided with nonzero, differing lengths (after
    normalizing a single string to a one-element sequence)." *)
Definition claimed_length_mismatch_iff (texts : TextInput)
    (reference_texts : option TextInput) (method : option string)
    (override_default_attribution : bool)
    (attr_pos_start attr_pos_end : option Z) (kwargs : AttributeKwargs)
    (w : World) : Prop :=
  is_length_mismatch
    (attribute (Output := Output) texts reference_texts method
       override_default_attribution attr_pos_start attr_pos_end kwargs w).1
  = true
  ↔ ∃ r, reference_texts = Some r
         ∧ normalised_length texts ≠ 0
         ∧ normalised_length r ≠ 0
         ∧ normalised_length texts ≠ normalised_length r.

(** "Every call to [attribute] with non-empty texts on a model with no
    stored default and with the method argument omitted raises
    MissingAttributionMethodError." *)
Definition claimed_missing_method (texts : TextInput)
    (reference_texts : option TextInput)
    (override_default_attribution : bool)
    (attr_pos_start attr_pos_end : option Z) (kwargs : AttributeKwargs)
    (w : World) : Prop :=
  texts_truthy texts = true →
  attribution_method w = None →
  (attribute (Output := Output) texts reference_texts None
     override_default_attribution attr_pos_start attr_pos_end kwargs w).1
  = Raise MissingAttributionMethodError.



(** "For every call to [attribute] with non-empty texts and the
    references omitted, [attribute] first calls [encode_texts] on the
    texts with baseline retention enabled, then calls [generate] on the
    resulting encoding." *)
Definition claimed_encode_then_generate (texts : TextInput)
    (method : option string) (override_default_attribution : bool)
    (attr_pos_start attr_pos_end : option Z) (kwargs : AttributeKwargs)
    (w : World) : Prop :=
  texts_truthy texts = true →
  ∃ flag args evs,
    events_since w
      (attribute (Output := Output) texts None method
         override_default_attribution attr_pos_start attr_pos_end
         kwargs w).2
    = EvEncodeTexts (as_list texts) true
      :: EvGenerate (encode_texts_result (as_list texts) true) flag args
      :: evs.

(** The references a caller may pass without tripping the length check:
    none, an empty sequence, or as many as there are texts. *)
Definition refs_compatible (texts : TextInput)
    (reference_texts : option TextInput) : Prop :=
  ∀ r, reference_texts = Some r →
       as_list r = [] ∨ normalised_length r = normalised_length texts.

End Claimed.

(** ** Observations on a log *)

Section Observations.
Context {BatchEncoding : Type}.

(** The calls that change which method is hooked to the model:
    [unhook] and [FeatureAttribution.load]. *)
Definition is_unhook_or_load (e : @Event BatchEncoding) : bool :=
  match e with
  | EvUnhook _ | EvLoad _ => true
  | _ => false
  end.

(** A call that ended normally. *)
Definition returned {A} (o : Outcome A) : bool :=
  match o with
  | Return _ => true
  | Raise _ => false
  end.

End Observations.

(** ** The two calls that splat a keyword bag *)

Section Calls.
Context {BatchEncoding Output : Type}.
Context `{!AttributionBackend BatchEncoding Output}.

(** The call of [generate] at lines 128-130 goes through: the generation
    arguments do not repeat [return_generation_output]. *)
Definition generation_call_ok (kwargs : AttributeKwargs) : bool :=
  negb (splat_clashes ["return_generation_output"]
          (default ∅ (generation_args kwargs))).

(** The keyword bag [get_attribution_args] receives: [attribution_args] is
    popped, [generation_args] too unless the references were given. *)
Definition forwarded_kwargs (given : bool) (kwargs : AttributeKwargs)
  : AttributeKwargs :=
  (pop_attribution_args
     (if given then kwargs else (pop_generation_args kwargs).2)).2.

(** The arguments splatted into [prepare_and_attribute] for method [m]. *)
Definition merged_args (m : FeatureAttribution) (given : bool)
    (kwargs : AttributeKwargs) : gmap string PyVal :=
  dict_update (default ∅ (attribution_args kwargs))
              (get_attribution_args_result m (forwarded_kwargs given kwargs)).

(** The call of [prepare_and_attribute] at lines 136-142 goes through: the
    merged arguments repeat neither [attr_pos_start] nor
    [attr_pos_end]. *)
Definition attribution_call_ok (m : FeatureAttribution) (given : bool)
    (kwargs : AttributeKwargs) : bool :=
  negb (splat_clashes ["attr_pos_start"; "attr_pos_end"]
          (merged_args m given kwargs)).

End Calls.

(** ** Proofs *)

Section FactoryProofs.
Context {Adapter : Type}.
Variable HuggingfaceModel : string → option string → gmap string PyVal → Adapter.

Lemma delete_with_from_hf (v : option PyVal) (kwargs : gmap string PyVal) :
  delete "from_hf" (with_from_hf v kwargs) = delete "from_hf" kwargs.
Proof.
  destruct v as [x|]; simpl.
  - apply delete_insert_eq.
  - apply map_eq; intros k.
    destruct (decide (k = "from_hf")) as [->|Hk].
    + by rewrite !lookup_delete_eq.
    + by rewrite !lookup_delete_ne.
Qed.

(** C9.  Whatever the caller passes as [from_hf] (any value, or nothing),
    [load] returns the Huggingface adapter built from the model name, the
    attribution method and the remaining keyword arguments: both branches
    of the conditional are the same call. *)
Theorem load_ignores_from_hf (model_name_or_path : string)
    (attribution_method : option string) (kwargs : gmap string PyVal)
    (from_hf : option PyVal) :
  load HuggingfaceModel model_name_or_path attribution_method
       (with_from_hf from_hf kwargs)
  = HuggingfaceModel model_name_or_path attribution_method
                     (delete "from_hf" kwargs).
Proof.
  unfold load, dict_pop. rewrite delete_with_from_hf.
  by destruct (truthy _).
Qed.

End FactoryProofs.

Section ModelProofs.
Context {BatchEncoding Output ModelHandle : Type}.
Context `{!ModelAdapter BatchEncoding}.
Context `{!AttributionBackend BatchEncoding Output}.

Abbreviation World := (@World BatchEncoding ModelHandle).

Lemma events_since_app (w w' : World) (evs : list Event) :
  trace w' = trace w ++ evs → events_since w w' = evs.
Proof. intros E. unfold events_since. rewrite E. apply drop_app_length. Qed.

Lemma str_truthy_nonempty (s : string) : s ≠ "" ↔ str_truthy s = true.
Proof. destruct s; simpl; split; congruence. Qed.

Lemma unhook_count_pair (a b : FeatureAttribution) :
  unhook_count (BatchEncoding := BatchEncoding) a [EvUnhook a; EvLoad b] = 1.
Proof.
  unfold unhook_count. rewrite filter_cons_True.
  - by rewrite filter_cons_False.
  - simpl. by rewrite bool_decide_eq_true.
Qed.

#[local] Arguments refs_truthy : simpl never.
#[local] Arguments splat_clashes : simpl never.

(** Run a monadic computation on an explicit world. *)
Ltac py_run :=
  repeat (progress (
    unfold mbind, mret, Py_bind, Py_ret, raise, lift,
      get_attribution_method_field, get_model_field,
      set_attribution_method, set_is_hooked, set_device, emit,
      unhook, FeatureAttribution_load, encode_texts, generate,
      get_attribution_args, prepare_and_attribute, splat; simpl)).

(** *** [get_attribution_method], branch by branch *)

(** No method given and none stored: the call raises and touches nothing. *)
Lemma get_attribution_method_missing (w : World) (method : option string)
    (ov : bool) :
  opt_str_truthy method = false →
  attribution_method w = None →
  get_attribution_method method ov w = (Raise MissingAttributionMethodError, w).
Proof.
  intros Hm Hd. unfold get_attribution_method. rewrite Hm. simpl.
  py_run. by rewrite Hd.
Qed.

(** No method given, a default stored: the default is returned. *)
Lemma get_attribution_method_default (w : World) (method : option string)
    (ov : bool) (a : FeatureAttribution) :
  opt_str_truthy method = false →
  attribution_method w = Some a →
  get_attribution_method method ov w = (Return a, w).
Proof.
  intros Hm Hd. unfold get_attribution_method. rewrite Hm. simpl.
  py_run. by rewrite Hd.
Qed.

(** A method given, a default stored, no override: the default is
    unhooked, a new object is built and returned, the default stays. *)
Lemma get_attribution_method_one_off (w : World) (name : string)
    (a : FeatureAttribution) :
  str_truthy name = true →
  attribution_method w = Some a →
  get_attribution_method (Some name) false w
  = (Return {| method_name := name; obj_id := next_obj w |},
     {| model := model w; attribution_method := Some a;
        is_hooked := is_hooked w; device := device w;
        next_obj := S (next_obj w);
        trace := trace w ++ [EvUnhook a;
                             EvLoad {| method_name := name;
                                       obj_id := next_obj w |}] |}).
Proof.
  intros Hm Hd. destruct w as [mdl cur hk dev n tr]; simpl in *; subst cur.
  unfold get_attribution_method; simpl. rewrite Hm; simpl.
  py_run. by rewrite <- app_assoc.
Qed.

(** A method given, a default stored, override requested: the default is
    unhooked and replaced by the new object. *)
Lemma get_attribution_method_override (w : World) (name : string)
    (a : FeatureAttribution) :
  str_truthy name = true →
  attribution_method w = Some a →
  get_attribution_method (Some name) true w
  = (Return {| method_name := name; obj_id := next_obj w |},
     {| model := model w;
        attribution_method := Some {| method_name := name;
                                      obj_id := next_obj w |};
        is_hooked := is_hooked w; device := device w;
        next_obj := S (next_obj w);
        trace := trace w ++ [EvUnhook a;
                             EvLoad {| method_name := name;
                                       obj_id := next_obj w |}] |}).
Proof.
  intros Hm Hd. destruct w as [mdl cur hk dev n tr]; simpl in *; subst cur.
  unfold get_attribution_method; simpl. rewrite Hm; simpl.
  py_run. by rewrite <- app_assoc.
Qed.

(** A method given and no default stored: the new object becomes the
    default, whatever the override flag. *)
Lemma get_attribution_method_first (w : World) (name : string) (ov : bool) :
  str_truthy name = true →
  attribution_method w = None →
  get_attribution_method (Some name) ov w
  = (Return {| method_name := name; obj_id := next_obj w |},
     {| model := model w;
        attribution_method := Some {| method_name := name;
                                      obj_id := next_obj w |};
        is_hooked := is_hooked w; device := device w;
        next_obj := S (next_obj w);
        trace := trace w ++ [EvLoad {| method_name := name;
                                       obj_id := next_obj w |}] |}).
Proof.
  intros Hm Hd. destruct w as [mdl cur hk dev n tr]; simpl in *; subst cur.
  unfold get_attribution_method; simpl. rewrite Hm; simpl.
  py_run. by destruct ov.
Qed.

(** The events of one call that resolves a named method while [a] is the
    stored default. *)
Lemma get_attribution_method_named_events (w : World) (name : string)
    (a : FeatureAttribution) (ov : bool) :
  str_truthy name = true →
  attribution_method w = Some a →
  events_since w (get_attribution_method (Some name) ov w).2
  = [EvUnhook a; EvLoad {| method_name := name; obj_id := next_obj w |}].
Proof.
  intros Hm Hd. apply events_since_app. destruct ov.
  - by rewrite (get_attribution_method_override w name a Hm Hd).
  - by rewrite (get_attribution_method_one_off w name a Hm Hd).
Qed.

(** *** The claims about [get_attribution_method] *)

(** C1, amended.  With [a] the stored default, resolving a method name
    without override returns an object constructed by this very call (it
    carries the requested name and the next free identity, so it differs
    from every object allocated before), leaves [a] as the stored default,
    and calls [a.unhook()] exactly once, before the construction. *)
Theorem one_off_keeps_default_but_unhooks_it (w : World) (name : string)
    (a : FeatureAttribution) :
  name ≠ "" →
  attribution_method w = Some a →
  ∃ b w',
    get_attribution_method (Some name) false w = (Return b, w')
    ∧ method_name b = name
    ∧ obj_id b = next_obj w
    ∧ next_obj w' = S (next_obj w)
    ∧ (obj_id a < next_obj w → b ≠ a)
    ∧ attribution_method w' = Some a
    ∧ events_since w w' = [EvUnhook a; EvLoad b]
    ∧ unhook_count a (events_since w w') = 1.
Proof.
  intros Hm%str_truthy_nonempty Hd.
  eexists _, _. split; [by apply get_attribution_method_one_off|].
  simpl. repeat split.
  - intros Hlt <-. simpl in Hlt. lia.
  - by apply events_since_app.
  - erewrite events_since_app; [apply unhook_count_pair|done].
Qed.

(** C3, amended.  For every non-empty method name, while a default [a] is
    stored, [a.unhook()] is the first thing the call does and the
    construction of the new method follows it, whatever the override
    flag. *)
Theorem named_method_unhooks_default_first (w : World) (name : string)
    (a : FeatureAttribution) (override_default_attribution : bool) :
  name ≠ "" →
  attribution_method w = Some a →
  ∃ b,
    (get_attribution_method (Some name) override_default_attribution w).1
    = Return b
    ∧ events_since w
        (get_attribution_method (Some name) override_default_attribution w).2
      = [EvUnhook a; EvLoad b].
Proof.
  intros Hm%str_truthy_nonempty Hd.
  exists {| method_name := name; obj_id := next_obj w |}. split.
  - destruct override_default_attribution.
    + by rewrite (get_attribution_method_override w name a Hm Hd).
    + by rewrite (get_attribution_method_one_off w name a Hm Hd).
  - by apply get_attribution_method_named_events.
Qed.

(** C7.  With [a] the stored default, resolving a method name with the
    override flag set makes the newly built object the stored default and
    calls [a.unhook()] exactly once. *)
Theorem override_replaces_default_and_unhooks_once (w : World)
    (name : string) (a : FeatureAttribution) :
  name ≠ "" →
  attribution_method w = Some a →
  ∃ b w',
    get_attribution_method (Some name) true w = (Return b, w')
    ∧ method_name b = name
    ∧ obj_id b = next_obj w
    ∧ attribution_method w' = Some b
    ∧ unhook_count a (events_since w w') = 1.
Proof.
  intros Hm%str_truthy_nonempty Hd.
  eexists _, _. split; [by apply get_attribution_method_override|].
  simpl. repeat split.
  erewrite events_since_app; [apply unhook_count_pair|done].
Qed.

(** *** [format_input_texts] *)

Lemma format_input_texts_raises (texts : TextInput)
    (reference_texts : option TextInput) :
  is_length_mismatch (format_input_texts texts reference_texts) = true
  ↔ ∃ r, reference_texts = Some r
         ∧ as_list r ≠ []
         ∧ length (as_list texts) ≠ length (as_list r).
Proof.
  unfold format_input_texts. destruct reference_texts as [r|]; simpl.
  - destruct (as_list r) as [|x l] eqn:Hr; simpl.
    + split; [done|]. intros (r' & [= <-] & Hne & _). by rewrite Hr in Hne.
    + destruct (Nat.eqb_spec (length (as_list texts)) (S (length l)))
        as [Heq|Hneq]; simpl.
      * split; [done|]. intros (r' & [= <-] & _ & Hlen).
        rewrite Hr in Hlen. simpl in Hlen. lia.
      * split; [|done]. intros _. exists r. rewrite Hr. simpl. done.
  - split; [done|]. by intros (r & ? & _).
Qed.

Lemma format_input_texts_returns (texts : TextInput)
    (reference_texts : option TextInput) :
  is_length_mismatch (format_input_texts texts reference_texts) = false →
  format_input_texts texts reference_texts
  = Return (as_list texts, as_list <$> reference_texts).
Proof.
  unfold format_input_texts.
  by destruct (refs_truthy _ && negb _).
Qed.

(** *** [attribute], stage by stage *)

(** Falsy [texts]: nothing happens. *)
Lemma attribute_falsy (texts : TextInput) (reference_texts : option TextInput)
    (method : option string) (ov : bool) (s e : option Z)
    (kwargs : AttributeKwargs) (w : World) :
  texts_truthy texts = false →
  attribute (Output := Output) texts reference_texts method ov s e kwargs w
  = (Return (Several []), w).
Proof. intros Ht. unfold attribute. by rewrite Ht. Qed.

(** The length check fails: the error surfaces and nothing else happens. *)
Lemma attribute_length_mismatch (texts : TextInput)
    (reference_texts : option TextInput)
    (method : option string) (ov : bool) (s e : option Z)
    (kwargs : AttributeKwargs) (w : World) (ex : Exn) :
  texts_truthy texts = true →
  format_input_texts texts reference_texts = Raise ex →
  attribute (Output := Output) texts reference_texts method ov s e kwargs w
  = (Raise ex, w).
Proof.
  intros Ht Hf. unfold attribute. rewrite Ht. simpl.
  py_run. by rewrite Hf.
Qed.

Lemma format_input_texts_falsy_refs (texts : TextInput)
    (reference_texts : option TextInput) :
  refs_truthy (as_list <$> reference_texts) = false →
  format_input_texts texts reference_texts
  = Return (as_list texts, as_list <$> reference_texts).
Proof. intros Hr. unfold format_input_texts. by rewrite Hr. Qed.

(** Every way a call to [get_attribution_method] can end: it raises the
    missing-method error and touches nothing, or it returns a method after
    at most one [unhook] followed by at most one construction. *)
Lemma get_attribution_method_cases (method : option string) (ov : bool)
    (w : World) :
  (get_attribution_method method ov w = (Raise MissingAttributionMethodError, w)
   ∧ opt_str_truthy method = false ∧ attribution_method w = None)
  ∨ ∃ b w2 evs,
      get_attribution_method method ov w = (Return b, w2)
      ∧ trace w2 = trace w ++ evs
      ∧ (evs = [] ∨ evs = [EvLoad b]
         ∨ ∃ a, attribution_method w = Some a ∧ evs = [EvUnhook a; EvLoad b]).
Proof.
  destruct (opt_str_truthy method) eqn:Hm;
    destruct (attribution_method w) as [a|] eqn:Hd.
  - destruct method as [name|]; [|done]. simpl in Hm. right.
    destruct ov; eexists _, _, _; (split; [|split]).
    + by apply get_attribution_method_override.
    + done.
    + right; right. by exists a.
    + by apply get_attribution_method_one_off.
    + done.
    + right; right. by exists a.
  - destruct method as [name|]; [|done]. simpl in Hm. right.
    eexists _, _, _; (split; [|split]).
    + by apply get_attribution_method_first.
    + done.
    + by right; left.
  - right. exists a, w, []. split; [|split].
    + by apply get_attribution_method_default.
    + by rewrite app_nil_r.
    + by left.
  - left. split; [|done]. by apply get_attribution_method_missing.
Qed.

(** Logging collaborator calls does not change how a method resolves. *)
Lemma get_attribution_method_log (method : option string) (ov : bool)
    (evs : list Event) (w : World) :
  (get_attribution_method method ov (log evs w)).1
  = (get_attribution_method method ov w).1.
Proof.
  destruct (opt_str_truthy method) eqn:Hm;
    destruct (attribution_method w) as [a|] eqn:Hd.
  - destruct method as [name|]; [|done]. simpl in Hm. destruct ov.
    + by rewrite (get_attribution_method_override w name a Hm Hd),
        (get_attribution_method_override (log evs w) name a Hm Hd).
    + by rewrite (get_attribution_method_one_off w name a Hm Hd),
        (get_attribution_method_one_off (log evs w) name a Hm Hd).
  - destruct method as [name|]; [|done]. simpl in Hm.
    by rewrite (get_attribution_method_first w name ov Hm Hd),
      (get_attribution_method_first (log evs w) name ov Hm Hd).
  - by rewrite (get_attribution_method_default w method ov a Hm Hd),
      (get_attribution_method_default (log evs w) method ov a Hm Hd).
  - by rewrite (get_attribution_method_missing w method ov Hm Hd),
      (get_attribution_method_missing (log evs w) method ov Hm Hd).
Qed.

(** Past the guard and the length check, [attribute] is: encode and
    generate unless usable references were given, resolve the method,
    collect its arguments, run it; each of the two splatting calls is
    refused when its keyword bag repeats a keyword of the call. *)
Lemma attribute_run (texts : TextInput) (reference_texts : option TextInput)
    (method : option string) (ov : bool) (s e : option Z)
    (kwargs : AttributeKwargs) (w : World) :
  texts_truthy texts = true →
  is_length_mismatch (format_input_texts texts reference_texts) = false →
  attribute (Output := Output) texts reference_texts method ov s e kwargs w
  = let given := refs_truthy (as_list <$> reference_texts) in
    let enc := encode_texts_result (as_list texts) true in
    let gargs := default ∅ (generation_args kwargs) in
    if negb given && negb (generation_call_ok kwargs)
    then (Raise TypeError, log [EvEncodeTexts (as_list texts) true] w)
    else
      let w1 := if given then w
                else log [EvEncodeTexts (as_list texts) true;
                          EvGenerate enc false gargs] w in
      let src := if given then SrcTexts (as_list texts)
                 else SrcEncoding enc in
      let refs := if given then default [] (as_list <$> reference_texts)
                  else generate_result enc false gargs in
      let kw := forwarded_kwargs given kwargs in
      match get_attribution_method method ov w1 with
      | (Raise ex, w2) => (Raise ex, w2)
      | (Return b, w2) =>
          let args := merged_args b given kwargs in
          if attribution_call_ok b given kwargs
          then (Return (prepare_and_attribute_result b src refs s e args),
                log [EvGetAttributionArgs b kw;
                     EvPrepareAndAttribute b src refs s e args] w2)
          else (Raise TypeError, log [EvGetAttributionArgs b kw] w2)
      end.
Proof.
  intros Ht Hf. cbv zeta.
  unfold attribute. rewrite Ht. cbn [negb].
  rewrite (format_input_texts_returns _ _ Hf).
  unfold generation_call_ok, attribution_call_ok, merged_args,
    forwarded_kwargs.
  destruct (refs_truthy (as_list <$> reference_texts)) eqn:Hr.
  - py_run. rewrite Hr. py_run.
    destruct (get_attribution_method method ov w) as [[b|ex] w2]; [|done].
    py_run.
    destruct (splat_clashes ["attr_pos_start"; "attr_pos_end"] _); [done|].
    py_run. unfold log. by rewrite <- app_assoc.
  - py_run. rewrite Hr. py_run.
    destruct (splat_clashes ["return_generation_output"] _); [done|].
    py_run. unfold log. rewrite <- app_assoc. simpl.
    destruct (get_attribution_method method ov _) as [[b|ex] w2]; [|done].
    py_run.
    destruct (splat_clashes ["attr_pos_start"; "attr_pos_end"] _); [done|].
    py_run. by rewrite <- app_assoc.
Qed.

(** Past the length check, [attribute] cannot raise a length mismatch. *)
Lemma attribute_no_mismatch_after_check (texts : TextInput)
    (reference_texts : option TextInput)
    (method : option string) (ov : bool) (s e : option Z)
    (kwargs : AttributeKwargs) (w : World) :
  texts_truthy texts = true →
  is_length_mismatch (format_input_texts texts reference_texts) = false →
  is_length_mismatch
    (attribute (Output := Output) texts reference_texts method ov s e
       kwargs w).1 = false.
Proof.
  intros Ht Hf. rewrite (attribute_run _ _ _ _ _ _ _ _ Ht Hf). cbv zeta.
  destruct (negb _ && negb _); [done|].
  match goal with
  | |- context [get_attribution_method method ov ?w1] =>
      destruct (get_attribution_method_cases method ov w1)
        as [(Hg & _)|(b & w2 & evs & Hg & _)]; rewrite Hg
  end; [done|].
  by destruct (attribution_call_ok _ _ _).
Qed.

Lemma truthy_normalised_length (texts : TextInput) :
  texts_truthy texts = true → normalised_length texts ≠ 0.
Proof. by destruct texts as [s|[|x l]]. Qed.

Lemma format_ok_iff_compatible (texts : TextInput)
    (reference_texts : option TextInput) :
  is_length_mismatch (format_input_texts texts reference_texts) = false
  ↔ refs_compatible texts reference_texts.
Proof.
  unfold refs_compatible, normalised_length. split.
  - intros Hok r ->.
    destruct (decide (as_list r = [])) as [|Hne]; [by left|].
    destruct (decide (length (as_list r) = length (as_list texts)))
      as [|Hdiff]; [by right|].
    assert (is_length_mismatch (format_input_texts texts (Some r)) = true)
      as Hyes; [|congruence].
    apply format_input_texts_raises. exists r. repeat split; [done|congruence].
  - intros Hc.
    destruct (is_length_mismatch _) eqn:Hyes; [|done].
    apply format_input_texts_raises in Hyes as (r & -> & Hne & Hdiff).
    destruct (Hc r eq_refl); [done|congruence].
Qed.

(** The log of any call to [attribute] has three parts, each possibly
    empty: encoding and generation, the resolution of the method, the
    calls on the resolved method.  A refused call leaves its part short. *)
Lemma attribute_events_shape (texts : TextInput)
    (reference_texts : option TextInput) (method : option string)
    (ov : bool) (s e : option Z) (kwargs : AttributeKwargs) (w : World) :
  let given := refs_truthy (as_list <$> reference_texts) in
  let enc := encode_texts_result (as_list texts) true in
  let gargs := default ∅ (generation_args kwargs) in
  let src := if given then SrcTexts (as_list texts) else SrcEncoding enc in
  let refs := if given then default [] (as_list <$> reference_texts)
              else generate_result enc false gargs in
  let kw := forwarded_kwargs given kwargs in
  ∃ pre mid post,
    events_since w
      (attribute (Output := Output) texts reference_texts method ov s e
         kwargs w).2
    = pre ++ mid ++ post
    ∧ (pre = []
       ∨ (given = false
          ∧ (pre = [EvEncodeTexts (as_list texts) true]
             ∨ pre = [EvEncodeTexts (as_list texts) true;
                      EvGenerate enc false gargs])))
    ∧ (mid = [] ∨ (∃ b, mid = [EvLoad b])
       ∨ ∃ a b, mid = [EvUnhook a; EvLoad b])
    ∧ (post = []
       ∨ ∃ b, post = [EvGetAttributionArgs b kw]
              ∨ post = [EvGetAttributionArgs b kw;
                        EvPrepareAndAttribute b src refs s e
                          (merged_args b given kwargs)]).
Proof.
  cbv zeta.
  assert (∀ w0 : World, events_since w0 w0 = []) as Hnone.
  { intros w0. apply events_since_app. by rewrite app_nil_r. }
  destruct (texts_truthy texts) eqn:Ht.
  2:{ rewrite attribute_falsy by done. exists [], [], []. simpl.
      rewrite Hnone. by eauto 10. }
  destruct (is_length_mismatch (format_input_texts texts reference_texts))
    eqn:Hf.
  { destruct (format_input_texts texts reference_texts)
      as [?|ex] eqn:Hfmt; [done|].
    rewrite (attribute_length_mismatch _ _ _ _ _ _ _ _ _ Ht Hfmt).
    exists [], [], []. simpl. rewrite Hnone. by eauto 10. }
  rewrite (attribute_run _ _ _ _ _ _ _ _ Ht Hf). cbv zeta.
  destruct (refs_truthy (as_list <$> reference_texts)) eqn:Hr; cbn [negb andb].
  - destruct (get_attribution_method_cases method ov w)
      as [(Hg & _)|(b & w2 & evs & Hg & Htr & Hevs)]; rewrite Hg.
    + exists [], [], []. simpl. rewrite Hnone. by eauto 10.
    + destruct (attribution_call_ok b true kwargs).
      * eexists [], evs, _. split; [|split; [by left|split]].
        -- apply events_since_app. simpl. by rewrite Htr, <- app_assoc.
        -- destruct Hevs as [->|[->|(a & _ & ->)]]; by eauto 10.
        -- right. eexists. by right.
      * eexists [], evs, _. split; [|split; [by left|split]].
        -- apply events_since_app. simpl. by rewrite Htr, <- app_assoc.
        -- destruct Hevs as [->|[->|(a & _ & ->)]]; by eauto 10.
        -- right. eexists. by left.
  - destruct (generation_call_ok kwargs); cbn [negb].
    2:{ eexists _, [], []. split; [|split; [right; split; [done|by left]|]].
        - apply events_since_app. simpl. by rewrite ?app_nil_r.
        - by eauto. }
    match goal with
    | |- context [get_attribution_method method ov ?w1] =>
        destruct (get_attribution_method_cases method ov w1)
          as [(Hg & _)|(b & w2 & evs & Hg & Htr & Hevs)]; rewrite Hg
    end.
    + eexists _, [], [].
      split; [|split; [right; split; [done|by right]|by eauto]].
      apply events_since_app. simpl. by rewrite ?app_nil_r.
    + destruct (attribution_call_ok b false kwargs).
      * eexists _, evs, _.
        split; [|split; [right; split; [done|by right]|split]].
        -- apply events_since_app. simpl. rewrite Htr. simpl.
           by rewrite <- !app_assoc.
        -- destruct Hevs as [->|[->|(a & _ & ->)]]; by eauto 10.
        -- right. eexists. by right.
      * eexists _, evs, _.
        split; [|split; [right; split; [done|by right]|split]].
        -- apply events_since_app. simpl. rewrite Htr. simpl.
           by rewrite <- !app_assoc.
        -- destruct Hevs as [->|[->|(a & _ & ->)]]; by eauto 10.
        -- right. eexists. by left.
Qed.

(** *** The claims about [attribute] *)

(** A non-empty string and the one-element sequence holding it are the
    same call once [format_input_texts] has run: the two inputs cannot be
    answered with results of different shapes. *)
Lemma attribute_single_as_singleton (text : string)
    (reference_texts : option TextInput) (method : option string)
    (ov : bool) (s e : option Z) (kwargs : AttributeKwargs) (w : World) :
  text ≠ "" →
  attribute (Output := Output) (Single text) reference_texts method ov s e
    kwargs w
  = attribute (Many [text]) reference_texts method ov s e kwargs w.
Proof.
  intros Ht%str_truthy_nonempty. unfold attribute. simpl. by rewrite Ht.
Qed.


(** C4, amended.  [attribute] raises LengthMismatchError exactly when the
    texts are truthy (neither the empty string nor the empty sequence) and
    references are given whose normalised length is nonzero and differs
    from that of the texts; with references as many as the texts it never
    raises it. *)
Theorem attribute_length_mismatch_iff (texts : TextInput)
    (reference_texts : option TextInput) (method : option string)
    (override_default_attribution : bool)
    (attr_pos_start attr_pos_end : option Z) (kwargs : AttributeKwargs)
    (w : World) :
  (is_length_mismatch
     (attribute (Output := Output) texts reference_texts method
        override_default_attribution attr_pos_start attr_pos_end
        kwargs w).1 = true
   ↔ texts_truthy texts = true
     ∧ ∃ r, reference_texts = Some r
            ∧ normalised_length r ≠ 0
            ∧ normalised_length texts ≠ normalised_length r)
  ∧ ∀ r, reference_texts = Some r →
         normalised_length r = normalised_length texts →
         is_length_mismatch
           (attribute (Output := Output) texts reference_texts method
              override_default_attribution attr_pos_start attr_pos_end
              kwargs w).1 = false.
Proof.
  assert (is_length_mismatch
            (attribute (Output := Output) texts reference_texts method
               override_default_attribution attr_pos_start attr_pos_end
               kwargs w).1 = true
          ↔ texts_truthy texts = true
            ∧ ∃ r, reference_texts = Some r
                   ∧ normalised_length r ≠ 0
                   ∧ normalised_length texts ≠ normalised_length r) as Hiff.
  { unfold normalised_length.
    destruct (texts_truthy texts) eqn:Ht.
    2:{ rewrite attribute_falsy by done. simpl. split; [done|].
        by intros [? _]. }
    destruct (is_length_mismatch
                (format_input_texts texts reference_texts)) eqn:Hf.
    - split.
      + intros _. split; [done|].
        apply format_input_texts_raises in Hf as (r & -> & Hnil & Hdiff).
        exists r. repeat split; [|done]. by destruct (as_list r).
      + intros _.
        destruct (format_input_texts texts reference_texts)
          as [?|[|msg|]] eqn:Hfmt; try done.
        by rewrite (attribute_length_mismatch _ _ _ _ _ _ _ _ _ Ht Hfmt).
    - rewrite (attribute_no_mismatch_after_check _ _ _ _ _ _ _ _ Ht Hf).
      split; [done|]. intros (_ & r & -> & Hnz & Hdiff).
      assert (is_length_mismatch (format_input_texts texts (Some r)) = true)
        as Hyes; [|congruence].
      apply format_input_texts_raises. exists r. repeat split; [|done].
      intros Hnil. by rewrite Hnil in Hnz. }
  split; [done|].
  intros r -> Heq.
  destruct (is_length_mismatch _) eqn:Hm; [|done].
  destruct (proj1 Hiff eq_refl) as (_ & r' & [= <-] & _ & Hdiff).
  congruence.
Qed.

(** C5.  On the empty sequence [attribute] returns the empty list at once:
    the whole call is the bare [return []], so neither
    [get_attribution_method] nor any collaborator is reached; the world is
    untouched, the log gains no event, and nothing is raised (not even on
    a model without a method). *)
Theorem attribute_empty_sequence_is_noop
    (reference_texts : option TextInput) (method : option string)
    (override_default_attribution : bool)
    (attr_pos_start attr_pos_end : option Z) (kwargs : AttributeKwargs)
    (w : World) :
  attribute (Output := Output) (ModelHandle := ModelHandle) (Many [])
    reference_texts method override_default_attribution attr_pos_start
    attr_pos_end kwargs
  = mret (Several [])
  ∧ attribute (Output := Output) (Many []) reference_texts method
      override_default_attribution attr_pos_start attr_pos_end kwargs w
    = (Return (Several []), w)
  ∧ events_since w
      (attribute (Output := Output) (Many []) reference_texts method
         override_default_attribution attr_pos_start attr_pos_end kwargs w).2
    = [].
Proof.
  split; [reflexivity|].
  rewrite attribute_falsy by done. split; [done|].
  apply events_since_app. by rewrite app_nil_r.
Qed.

(** C6, amended.  With non-empty texts, references that pass the length
    check (none, empty, or as many as the texts), generation arguments
    that do not repeat [return_generation_output] when the references have
    to be generated, no stored default and no method argument,
    [attribute] raises MissingAttributionMethodError. *)
Theorem attribute_without_method_raises (texts : TextInput)
    (reference_texts : option TextInput)
    (override_default_attribution : bool)
    (attr_pos_start attr_pos_end : option Z) (kwargs : AttributeKwargs)
    (w : World) :
  refs_compatible texts reference_texts →
  texts_truthy texts = true →
  attribution_method w = None →
  refs_truthy (as_list <$> reference_texts) = true
  ∨ generation_call_ok kwargs = true →
  (attribute (Output := Output) texts reference_texts None
     override_default_attribution attr_pos_start attr_pos_end kwargs w).1
  = Raise MissingAttributionMethodError.
Proof.
  intros Hc%format_ok_iff_compatible Ht Hd Hgen.
  rewrite (attribute_run _ _ _ _ _ _ _ _ Ht Hc). cbv zeta.
  destruct (refs_truthy (as_list <$> reference_texts)) eqn:Hr;
    cbn [negb andb].
  - by rewrite (get_attribution_method_missing w None _ eq_refl Hd).
  - destruct Hgen as [Hgen|Hgen]; [discriminate Hgen|].
    rewrite Hgen. cbn [negb].
    by rewrite get_attribution_method_missing.
Qed.

(** C8, amended.  With non-empty texts, no references, and generation
    arguments that do not repeat [return_generation_output], the first
    call [attribute] makes is [encode_texts] on the normalised texts with
    [return_baseline=True], the second is [generate] on the encoding it
    got back; neither is called again, and if the attribution method
    runs, it runs afterwards, on that encoding and on the generated
    references. *)
Theorem attribute_encodes_then_generates (texts : TextInput)
    (method : option string) (override_default_attribution : bool)
    (attr_pos_start attr_pos_end : option Z) (kwargs : AttributeKwargs)
    (w : World) :
  texts_truthy texts = true →
  generation_call_ok kwargs = true →
  let enc := encode_texts_result (as_list texts) true in
  let gargs := default ∅ (generation_args kwargs) in
  ∃ evs,
    events_since w
      (attribute (Output := Output) texts None method
         override_default_attribution attr_pos_start attr_pos_end kwargs w).2
    = EvEncodeTexts (as_list texts) true :: EvGenerate enc false gargs :: evs
    ∧ forallb (λ ev, negb (is_encode_or_generate ev)) evs = true
    ∧ ∀ b src refs s e args,
        EvPrepareAndAttribute b src refs s e args ∈ evs →
        src = SrcEncoding enc ∧ refs = generate_result enc false gargs.
Proof.
  intros Ht Hgen. cbv zeta.
  rewrite (attribute_run texts None _ _ _ _ _ _ Ht eq_refl). cbv zeta.
  rewrite Hgen. cbn [fmap option_fmap option_map]. unfold refs_truthy.
  cbn [negb andb].
  match goal with
  | |- context [get_attribution_method ?m ?o ?w1] =>
      destruct (get_attribution_method_cases m o w1)
        as [(Hg & _)|(b & w2 & evs & Hg & Htr & Hevs)]; rewrite Hg
  end.
  - exists []. split; [by apply events_since_app|]. split; [done|].
    intros ? ? ? ? ? ? Hin. by apply elem_of_nil in Hin.
  - destruct (attribution_call_ok b false kwargs).
    + eexists. split.
      * apply events_since_app. simpl. rewrite Htr. simpl.
        rewrite <- !app_assoc. simpl. reflexivity.
      * destruct Hevs as [->|[->|(a & _ & ->)]]; simpl; (split; [done|]);
          intros b' src refs s e args Hin;
          repeat (apply elem_of_cons in Hin as [Hin|Hin];
                  [try discriminate Hin|]);
          try (by apply elem_of_nil in Hin);
          by injection Hin as -> -> -> -> -> ->.
    + eexists. split.
      * apply events_since_app. simpl. rewrite Htr. simpl.
        rewrite <- !app_assoc. simpl. reflexivity.
      * destruct Hevs as [->|[->|(a & _ & ->)]]; simpl; (split; [done|]);
          intros b' src refs s e args Hin;
          repeat (apply elem_of_cons in Hin as [Hin|Hin];
                  [try discriminate Hin|]);
          by apply elem_of_nil in Hin.
Qed.

(** *** The constructor *)

(** C10.  Constructed without an attribution method, [__init__] raises
    MissingAttributionMethodError: the stored method has just been reset,
    so nothing can be resolved; [setup] is never reached and no
    collaborator is called.  More generally a constructor call either
    raises that error or leaves a method stored, so [__init__] never
    yields an instance without one. *)
Theorem init_without_method_raises (cuda_is_available : bool)
    (kwargs : gmap string PyVal) (w : World) :
  (__init__ cuda_is_available None kwargs w).1
  = Raise MissingAttributionMethodError
  ∧ attribution_method (__init__ cuda_is_available None kwargs w).2 = None
  ∧ events_since w (__init__ cuda_is_available None kwargs w).2 = []
  ∧ ∀ method,
      (__init__ cuda_is_available method kwargs w).1
      = Raise MissingAttributionMethodError
      ∨ is_Some (attribution_method
                   (__init__ cuda_is_available method kwargs w).2).
Proof.
  destruct w as [mdl cur hk dev n tr].
  repeat split.
  - unfold events_since. simpl. by rewrite drop_all.
  - intros [[|c name]|].
    + by left.
    + right. unfold __init__, get_attribution_method, setup. py_run.
      destruct mdl; py_run; by eexists.
    + by left.
Qed.

(** ** Further properties of the module *)

(** *** [format_input_texts] *)

(** X1.  When [format_input_texts] returns, the texts are the normalised
    input, the references the normalised references, and references that
    are present and non-empty are exactly as many as the texts. *)
Theorem format_input_texts_balanced (texts : TextInput)
    (reference_texts : option TextInput)
    (t : list string) (r : option (list string)) :
  format_input_texts texts reference_texts = Return (t, r) →
  t = as_list texts
  ∧ r = as_list <$> reference_texts
  ∧ ∀ l, r = Some l → l ≠ [] → length l = length t.
Proof.
  intros Hf.
  assert (is_length_mismatch (format_input_texts texts reference_texts)
          = false) as Hok by (by rewrite Hf).
  rewrite (format_input_texts_returns _ _ Hok) in Hf.
  injection Hf as <- <-. repeat split.
  intros l Hl Hne. destruct reference_texts as [rt|]; [|done].
  injection Hl as <-.
  destruct (decide (length (as_list rt) = length (as_list texts)))
    as [|Hdiff]; [done|].
  assert (is_length_mismatch (format_input_texts texts (Some rt)) = true)
    as Hyes; [|congruence].
  apply format_input_texts_raises. exists rt. repeat split; [done|congruence].
Qed.

(** X2.  [format_input_texts] raises exactly when references are given,
    normalise to a non-empty list and differ in number from the texts; the
    exception is then the LengthMismatchError whose message reports both
    lengths, and nothing else is ever raised. *)
Theorem format_input_texts_error_iff (texts : TextInput)
    (reference_texts : option TextInput) (ex : Exn) :
  format_input_texts texts reference_texts = Raise ex
  ↔ ∃ r, reference_texts = Some r
         ∧ as_list r ≠ []
         ∧ length (as_list texts) ≠ length (as_list r)
         ∧ ex = LengthMismatchError
                  (length_mismatch_msg (length (as_list texts))
                                       (length (as_list r))).
Proof.
  split.
  - intros Hf.
    assert (is_length_mismatch (format_input_texts texts reference_texts)
            = true) as Hyes.
    { unfold format_input_texts in *.
      destruct (refs_truthy _ && negb _); [done|discriminate Hf]. }
    apply format_input_texts_raises in Hyes as (r & -> & Hne & Hdiff).
    exists r. repeat split; [done..|].
    unfold format_input_texts in Hf. simpl in Hf.
    destruct (refs_truthy _ && negb _); [|discriminate Hf]. congruence.
  - intros (r & -> & Hne & Hdiff & ->).
    unfold format_input_texts. simpl.
    assert (refs_truthy (Some (as_list r)) = true) as ->
      by (by destruct (as_list r)).
    destruct (Nat.eqb_spec (length (as_list texts)) (length (as_list r)));
      [done|reflexivity].
Qed.

(** X3.  Formatting is idempotent: feeding the lists it returned back in
    returns them unchanged. *)
Theorem format_input_texts_idempotent (texts : TextInput)
    (reference_texts : option TextInput)
    (t : list string) (r : option (list string)) :
  format_input_texts texts reference_texts = Return (t, r) →
  format_input_texts (Many t) (Many <$> r) = Return (t, r).
Proof.
  intros Hf.
  assert (is_length_mismatch (format_input_texts texts reference_texts)
          = false) as Hok by (by rewrite Hf).
  rewrite (format_input_texts_returns _ _ Hok) in Hf.
  injection Hf as <- <-.
  destruct reference_texts as [rt|]; [|done].
  unfold format_input_texts in *. simpl in *.
  by destruct (refs_truthy _ && negb _).
Qed.

(** X4.  A reference given as one string, the empty string included,
    counts as one reference: the check passes exactly when there is one
    text. *)
Theorem format_input_texts_single_reference (texts : TextInput)
    (ref : string) :
  is_length_mismatch (format_input_texts texts (Some (Single ref)))
  = negb (length (as_list texts) =? 1).
Proof.
  unfold format_input_texts. simpl.
  by destruct (length (as_list texts) =? 1).
Qed.

(** *** [get_attribution_method] as a state machine *)

(** X5.  [get_attribution_method] raises exactly when the method argument
    is falsy ([None] or the empty string) and no default is stored; the
    exception is MissingAttributionMethodError and the object is left as
    it was. *)
Theorem get_attribution_method_raises_iff (method : option string)
    (override_default_attribution : bool) (w : World) :
  returned (get_attribution_method method override_default_attribution w).1
  = false
  ↔ opt_str_truthy method = false
    ∧ attribution_method w = None
    ∧ get_attribution_method method override_default_attribution w
      = (Raise MissingAttributionMethodError, w).
Proof.
  destruct (get_attribution_method_cases method override_default_attribution w)
    as [(Hg & Hm & Hd)|(b & w2 & evs & Hg & _)]; rewrite Hg; simpl.
  - done.
  - split; [done|]. by intros (_ & _ & [=]).
Qed.

(** X6.  After a call that returns, a default is stored.  The returned
    method is that default, except for a one-off use (a method name given,
    a default already stored, no override): then the default is the one
    stored before. *)
Theorem get_attribution_method_result_or_one_off (method : option string)
    (override_default_attribution : bool) (w : World)
    (b : FeatureAttribution) :
  (get_attribution_method method override_default_attribution w).1
  = Return b →
  attribution_method
    (get_attribution_method method override_default_attribution w).2
  = Some b
  ∨ (override_default_attribution = false
     ∧ opt_str_truthy method = true
     ∧ is_Some (attribution_method w)
     ∧ attribution_method
         (get_attribution_method method override_default_attribution w).2
       = attribution_method w).
Proof.
  destruct (opt_str_truthy method) eqn:Hm;
    destruct (attribution_method w) as [a|] eqn:Hd.
  - destruct method as [name|]; [|done]. simpl in Hm.
    destruct override_default_attribution.
    + rewrite (get_attribution_method_override w name a Hm Hd).
      simpl. intros [= <-]. by left.
    + rewrite (get_attribution_method_one_off w name a Hm Hd).
      simpl. intros _. right. by eauto.
  - destruct method as [name|]; [|done]. simpl in Hm.
    rewrite (get_attribution_method_first w name _ Hm Hd).
    simpl. intros [= <-]. by left.
  - rewrite (get_attribution_method_default w method _ a Hm Hd).
    simpl. intros [= <-]. by left.
  - by rewrite (get_attribution_method_missing w method _ Hm Hd).
Qed.

(** X7.  Without the override flag a stored default is never replaced,
    whatever the method argument. *)
Theorem get_attribution_method_keeps_default (method : option string)
    (w : World) (a : FeatureAttribution) :
  attribution_method w = Some a →
  attribution_method (get_attribution_method method false w).2 = Some a.
Proof.
  intros Hd. destruct (opt_str_truthy method) eqn:Hm.
  - destruct method as [name|]; [|done]. simpl in Hm.
    by rewrite (get_attribution_method_one_off w name a Hm Hd).
  - by rewrite (get_attribution_method_default w method _ a Hm Hd).
Qed.

(** X8.  The empty string as method is handled exactly like [None], and
    with a falsy method the override flag has no effect and the object is
    never modified. *)
Theorem get_attribution_method_falsy (ov ov' : bool) (w : World) :
  get_attribution_method (Some "") ov w = get_attribution_method None ov' w
  ∧ (get_attribution_method None ov w).2 = w.
Proof.
  split; [reflexivity|].
  destruct (attribution_method w) as [a|] eqn:Hd.
  - by rewrite (get_attribution_method_default w None _ a eq_refl Hd).
  - by rewrite (get_attribution_method_missing w None _ eq_refl Hd).
Qed.

(** X9.  On a model without a default, a named method becomes the default
    whatever the override flag says, and [unhook] is not called: the only
    event is the construction. *)
Theorem get_attribution_method_first_becomes_default (w : World)
    (name : string) (override_default_attribution : bool) :
  name ≠ "" →
  attribution_method w = None →
  ∃ b,
    (get_attribution_method (Some name) override_default_attribution w).1
    = Return b
    ∧ method_name b = name
    ∧ attribution_method
        (get_attribution_method (Some name) override_default_attribution w).2
      = Some b
    ∧ events_since w
        (get_attribution_method (Some name) override_default_attribution w).2
      = [EvLoad b].
Proof.
  intros Hm%str_truthy_nonempty Hd.
  rewrite (get_attribution_method_first w name _ Hm Hd). simpl.
  eexists. repeat split. by apply events_since_app.
Qed.

(** X10.  Two calls in a row on a model without a default: the first
    method becomes the default and is unhooked once by the second call,
    which builds a distinct object even for the same name; the second
    method replaces the default exactly when override is set. *)
Theorem get_attribution_method_twice (w : World) (name1 name2 : string)
    (ov1 ov2 : bool) :
  name1 ≠ "" →
  name2 ≠ "" →
  attribution_method w = None →
  ∃ a b w',
    (first ← get_attribution_method (Some name1) ov1;
     second ← get_attribution_method (Some name2) ov2;
     mret (first, second)) w
    = (Return (a, b), w')
    ∧ method_name a = name1
    ∧ method_name b = name2
    ∧ a ≠ b
    ∧ attribution_method w' = Some (if ov2 then b else a)
    ∧ events_since w w' = [EvLoad a; EvUnhook a; EvLoad b].
Proof.
  intros Hm1%str_truthy_nonempty Hm2%str_truthy_nonempty Hd.
  unfold mbind at 1, Py_bind at 1.
  rewrite (get_attribution_method_first w name1 ov1 Hm1 Hd).
  unfold mbind at 1, Py_bind at 1.
  destruct ov2.
  - rewrite get_attribution_method_override
      with (a := {| method_name := name1; obj_id := next_obj w |});
      [|done..].
    eexists _, _, _. split; [reflexivity|]. simpl. repeat split.
    + intros [= _ Hid]. lia.
    + apply events_since_app. simpl. by rewrite <- app_assoc.
  - rewrite get_attribution_method_one_off
      with (a := {| method_name := name1; obj_id := next_obj w |});
      [|done..].
    eexists _, _, _. split; [reflexivity|]. simpl. repeat split.
    + intros [= _ Hid]. lia.
    + apply events_since_app. simpl. by rewrite <- app_assoc.
Qed.

(** X11.  A method that was stored (by override, or on a model without a
    default) is what every later call without a method returns, and those
    calls change nothing. *)
Theorem get_attribution_method_stored_then_default (w : World)
    (name : string) (ov ov' : bool) :
  name ≠ "" →
  ov = true ∨ attribution_method w = None →
  ∃ b w1,
    get_attribution_method (Some name) ov w = (Return b, w1)
    ∧ get_attribution_method None ov' w1 = (Return b, w1).
Proof.
  intros Hm%str_truthy_nonempty Hcase.
  destruct (attribution_method w) as [a|] eqn:Hd.
  - destruct Hcase as [->|[=]].
    rewrite (get_attribution_method_override w name a Hm Hd).
    eexists _, _. split; [reflexivity|].
    by apply get_attribution_method_default.
  - rewrite (get_attribution_method_first w name ov Hm Hd).
    eexists _, _. split; [reflexivity|].
    by apply get_attribution_method_default.
Qed.

(** *** [attribute] as a whole *)

(** X12.  [attribute] returns normally exactly when the texts are falsy,
    or every stage goes through: the references pass the length check,
    the call of [generate] (needed when no usable references are given)
    is not refused for a repeated keyword, a method resolves, and the
    call of [prepare_and_attribute] on that method is not refused for a
    repeated keyword. *)
Theorem attribute_returns_iff (texts : TextInput)
    (reference_texts : option TextInput) (method : option string)
    (override_default_attribution : bool)
    (attr_pos_start attr_pos_end : option Z) (kwargs : AttributeKwargs)
    (w : World) :
  returned
    (attribute (Output := Output) texts reference_texts method
       override_default_attribution attr_pos_start attr_pos_end kwargs w).1
  = true
  ↔ texts_truthy texts = false
    ∨ (is_length_mismatch (format_input_texts texts reference_texts) = false
       ∧ (refs_truthy (as_list <$> reference_texts) = true
          ∨ generation_call_ok kwargs = true)
       ∧ ∃ b,
           (get_attribution_method method override_default_attribution w).1
           = Return b
           ∧ attribution_call_ok b
               (refs_truthy (as_list <$> reference_texts)) kwargs = true).
Proof.
  destruct (texts_truthy texts) eqn:Ht.
  2:{ rewrite attribute_falsy by done. simpl. split; [by left|done]. }
  destruct (is_length_mismatch (format_input_texts texts reference_texts))
    eqn:Hf.
  { destruct (format_input_texts texts reference_texts)
      as [?|ex] eqn:Hfmt; [done|].
    rewrite (attribute_length_mismatch _ _ _ _ _ _ _ _ _ Ht Hfmt). simpl.
    split; [done|]. by intros [|[? _]]. }
  rewrite (attribute_run _ _ _ _ _ _ _ _ Ht Hf). cbv zeta.
  destruct (refs_truthy (as_list <$> reference_texts)) eqn:Hr;
    cbn [negb andb].
  - destruct (get_attribution_method method override_default_attribution w)
      as [[b|ex] w2]; simpl.
    + destruct (attribution_call_ok b true kwargs) eqn:Hok; simpl.
      * split; [|done]. intros _. right. split; [done|].
        split; [by left|]. by exists b.
      * split; [done|]. intros [|(_ & _ & b' & [= <-] & Hok')]; [done|].
        congruence.
    + split; [done|]. by intros [|(_ & _ & b' & [=] & _)].
  - destruct (generation_call_ok kwargs) eqn:Hgen; cbn [negb].
    2:{ simpl. split; [done|]. by intros [|(_ & [|] & _)]. }
    match goal with
    | |- context [get_attribution_method ?m ?o (log ?evs w)] =>
        pose proof (get_attribution_method_log m o evs w) as Hlog;
        destruct (get_attribution_method m o (log evs w)) as [[b|ex] w2]
    end; simpl in Hlog; rewrite <- Hlog; simpl.
    + destruct (attribution_call_ok b false kwargs) eqn:Hok; simpl.
      * split; [|done]. intros _. right. split; [done|].
        split; [by right|]. by exists b.
      * split; [done|]. intros [|(_ & _ & b' & [= <-] & Hok')]; [done|].
        congruence.
    + split; [done|]. by intros [|(_ & _ & b' & [=] & _)].
Qed.

(** X13.  A LengthMismatchError leaves no trace: when [attribute] raises
    it, the object is unchanged and no collaborator was called. *)
Theorem attribute_length_mismatch_is_atomic (texts : TextInput)
    (reference_texts : option TextInput) (method : option string)
    (override_default_attribution : bool)
    (attr_pos_start attr_pos_end : option Z) (kwargs : AttributeKwargs)
    (w : World) :
  is_length_mismatch
    (attribute (Output := Output) texts reference_texts method
       override_default_attribution attr_pos_start attr_pos_end kwargs w).1
  = true →
  (attribute (Output := Output) texts reference_texts method
     override_default_attribution attr_pos_start attr_pos_end kwargs w).2
  = w.
Proof.
  intros Hraise.
  destruct (texts_truthy texts) eqn:Ht.
  2:{ by rewrite attribute_falsy. }
  destruct (is_length_mismatch (format_input_texts texts reference_texts))
    eqn:Hf.
  - destruct (format_input_texts texts reference_texts)
      as [?|ex] eqn:Hfmt; [done|].
    by rewrite (attribute_length_mismatch _ _ _ _ _ _ _ _ _ Ht Hfmt).
  - rewrite (attribute_no_mismatch_after_check _ _ _ _ _ _ _ _ Ht Hf)
      in Hraise.
    discriminate Hraise.
Qed.

(** X14.  A missing method is found out late: with non-empty texts, a
    falsy method and no stored default, the error is raised after the
    texts were encoded and the references generated when no usable
    references were given (and the call of [generate] was not refused for
    a repeated keyword); with usable references nothing has happened. *)
Theorem attribute_missing_method_after_generation (texts : TextInput)
    (reference_texts : option TextInput) (method : option string)
    (override_default_attribution : bool)
    (attr_pos_start attr_pos_end : option Z) (kwargs : AttributeKwargs)
    (w : World) :
  texts_truthy texts = true →
  refs_compatible texts reference_texts →
  refs_truthy (as_list <$> reference_texts) = true
  ∨ generation_call_ok kwargs = true →
  opt_str_truthy method = false →
  attribution_method w = None →
  attribute (Output := Output) texts reference_texts method
    override_default_attribution attr_pos_start attr_pos_end kwargs w
  = (Raise MissingAttributionMethodError,
     if refs_truthy (as_list <$> reference_texts) then w
     else log [EvEncodeTexts (as_list texts) true;
               EvGenerate (encode_texts_result (as_list texts) true) false
                          (default ∅ (generation_args kwargs))] w).
Proof.
  intros Ht Hc%format_ok_iff_compatible Hgen Hm Hd.
  rewrite (attribute_run _ _ _ _ _ _ _ _ Ht Hc). cbv zeta.
  destruct (refs_truthy (as_list <$> reference_texts)) eqn:Hr;
    cbn [negb andb].
  - by rewrite get_attribution_method_missing.
  - destruct Hgen as [Hgen|Hgen]; [discriminate Hgen|].
    rewrite Hgen. cbn [negb].
    by rewrite get_attribution_method_missing.
Qed.

(** X15.  When usable references are given (they normalise to a
    non-empty list), [attribute] never calls [encode_texts] or [generate],
    and the attribution method, if it runs, receives the normalised texts
    and exactly those references. *)
Theorem attribute_given_references_skip_generation (texts r : TextInput)
    (method : option string) (override_default_attribution : bool)
    (attr_pos_start attr_pos_end : option Z) (kwargs : AttributeKwargs)
    (w : World) :
  as_list r ≠ [] →
  forallb (λ ev, negb (is_encode_or_generate ev))
    (events_since w
       (attribute (Output := Output) texts (Some r) method
          override_default_attribution attr_pos_start attr_pos_end
          kwargs w).2)
  = true
  ∧ ∀ b src refs s e args,
      EvPrepareAndAttribute b src refs s e args
      ∈ events_since w
          (attribute (Output := Output) texts (Some r) method
             override_default_attribution attr_pos_start attr_pos_end
             kwargs w).2 →
      src = SrcTexts (as_list texts) ∧ refs = as_list r.
Proof.
  intros Hne.
  assert (refs_truthy (as_list <$> Some r) = true) as Hr
    by (simpl; by destruct (as_list r)).
  destruct (attribute_events_shape texts (Some r) method
              override_default_attribution attr_pos_start attr_pos_end
              kwargs w) as (pre & mid & post & -> & Hpre & Hmid & Hpost).
  rewrite Hr in Hpre, Hpost.
  destruct Hpre as [->|[[=] _]].
  destruct Hmid as [->|[(b & ->)|(a & b & ->)]];
    destruct Hpost as [->|(b' & [->| ->])]; simpl; (split; [done|]);
    intros b0 src refs s e args Hin;
    repeat (apply elem_of_cons in Hin as [Hin|Hin];
            [try discriminate Hin|]);
    try (by apply elem_of_nil in Hin);
    by injection Hin as -> -> -> -> -> ->.
Qed.

(** X16.  What reaches the attribution method as arguments is the caller's
    [attribution_args] updated with what [get_attribution_args] extracted
    from the remaining keyword arguments: on a key both define, the
    extracted value wins. *)
Theorem attribute_arguments_merge (texts : TextInput)
    (reference_texts : option TextInput) (method : option string)
    (override_default_attribution : bool)
    (attr_pos_start attr_pos_end : option Z) (kwargs : AttributeKwargs)
    (w : World) :
  ∀ b src refs s e args,
    EvPrepareAndAttribute b src refs s e args
    ∈ events_since w
        (attribute (Output := Output) texts reference_texts method
           override_default_attribution attr_pos_start attr_pos_end
           kwargs w).2 →
    ∃ kw,
      EvGetAttributionArgs b kw
      ∈ events_since w
          (attribute (Output := Output) texts reference_texts method
             override_default_attribution attr_pos_start attr_pos_end
             kwargs w).2
      ∧ ∀ key,
          args !! key
          = match get_attribution_args_result b kw !! key with
            | Some v => Some v
            | None => default ∅ (attribution_args kwargs) !! key
            end.
Proof.
  destruct (attribute_events_shape texts reference_texts method
              override_default_attribution attr_pos_start attr_pos_end
              kwargs w) as (pre & mid & post & -> & Hpre & Hmid & Hpost).
  intros b src refs s e args Hin.
  destruct Hpost as [->|(b' & [->| ->])].
  - exfalso. rewrite app_nil_r in Hin.
    destruct Hpre as [->|[_ [->| ->]]];
      destruct Hmid as [->|[(b1 & ->)|(a1 & b1 & ->)]]; simpl in Hin;
      repeat (apply elem_of_cons in Hin as [Hin|Hin];
              [discriminate Hin|]);
      by apply elem_of_nil in Hin.
  - exfalso.
    destruct Hpre as [->|[_ [->| ->]]];
      destruct Hmid as [->|[(b1 & ->)|(a1 & b1 & ->)]]; simpl in Hin;
      repeat (apply elem_of_cons in Hin as [Hin|Hin];
              [discriminate Hin|]);
      by apply elem_of_nil in Hin.
  - assert (b = b'
            ∧ args = merged_args b'
                       (refs_truthy (as_list <$> reference_texts)) kwargs)
      as [-> ->].
    { destruct Hpre as [->|[_ [->| ->]]];
        destruct Hmid as [->|[(b1 & ->)|(a1 & b1 & ->)]]; simpl in Hin;
        repeat (apply elem_of_cons in Hin as [Hin|Hin];
                [try discriminate Hin|]);
        try (by apply elem_of_nil in Hin);
        by injection Hin as -> -> -> -> -> ->. }
    eexists. split.
    + rewrite !elem_of_app. right; right. apply elem_of_cons. by left.
    + intros key. unfold merged_args, dict_update. rewrite lookup_union.
      by destruct (get_attribution_args_result b' _ !! key),
                  (default ∅ (attribution_args kwargs) !! key).
Qed.

(** X17.  The keyword arguments handed to [get_attribution_args] never
    hold [attribution_args]; they hold [generation_args] only when usable
    references were given (otherwise generation has consumed it); every
    other keyword is passed through. *)
Theorem attribute_forwarded_kwargs (texts : TextInput)
    (reference_texts : option TextInput) (method : option string)
    (override_default_attribution : bool)
    (attr_pos_start attr_pos_end : option Z) (kwargs : AttributeKwargs)
    (w : World) :
  ∀ b kw,
    EvGetAttributionArgs b kw
    ∈ events_since w
        (attribute (Output := Output) texts reference_texts method
           override_default_attribution attr_pos_start attr_pos_end
           kwargs w).2 →
    attribution_args kw = None
    ∧ other_kwargs kw = other_kwargs kwargs
    ∧ generation_args kw
      = if refs_truthy (as_list <$> reference_texts)
        then generation_args kwargs else None.
Proof.
  destruct (attribute_events_shape texts reference_texts method
              override_default_attribution attr_pos_start attr_pos_end
              kwargs w) as (pre & mid & post & -> & Hpre & Hmid & Hpost).
  intros b kw Hin.
  assert (kw = forwarded_kwargs
                 (refs_truthy (as_list <$> reference_texts)) kwargs)
    as ->.
  { destruct Hpre as [->|[_ [->| ->]]];
      destruct Hmid as [->|[(b1 & ->)|(a1 & b1 & ->)]];
      destruct Hpost as [->|(b' & [->| ->])]; simpl in Hin;
      repeat (apply elem_of_cons in Hin as [Hin|Hin];
              [try discriminate Hin|]);
      try (by apply elem_of_nil in Hin);
      by injection Hin as -> ->. }
  unfold forwarded_kwargs. by destruct (refs_truthy _).
Qed.

(** X18.  With a stored default and no method argument, and no call
    refused for a repeated keyword, [attribute] returns what the default
    method's [prepare_and_attribute] returns; the default stays in place,
    it is not unhooked, and no method object is constructed. *)
Theorem attribute_uses_stored_default (texts : TextInput)
    (reference_texts : option TextInput) (method : option string)
    (override_default_attribution : bool)
    (attr_pos_start attr_pos_end : option Z) (kwargs : AttributeKwargs)
    (w : World) (a : FeatureAttribution) :
  texts_truthy texts = true →
  refs_compatible texts reference_texts →
  refs_truthy (as_list <$> reference_texts) = true
  ∨ generation_call_ok kwargs = true →
  attribution_call_ok a (refs_truthy (as_list <$> reference_texts)) kwargs
  = true →
  opt_str_truthy method = false →
  attribution_method w = Some a →
  ∃ src refs args w',
    attribute (Output := Output) texts reference_texts method
      override_default_attribution attr_pos_start attr_pos_end kwargs w
    = (Return (prepare_and_attribute_result a src refs attr_pos_start
                 attr_pos_end args), w')
    ∧ EvPrepareAndAttribute a src refs attr_pos_start attr_pos_end args
      ∈ events_since w w'
    ∧ attribution_method w' = Some a
    ∧ next_obj w' = next_obj w
    ∧ forallb (λ ev, negb (is_unhook_or_load ev)) (events_since w w') = true.
Proof.
  intros Ht Hc%format_ok_iff_compatible Hgen Hok Hm Hd.
  rewrite (attribute_run _ _ _ _ _ _ _ _ Ht Hc). cbv zeta.
  destruct (refs_truthy (as_list <$> reference_texts)) eqn:Hr;
    cbn [negb andb].
  - rewrite (get_attribution_method_default w method _ a Hm Hd), Hok.
    eexists _, _, _, _. split; [reflexivity|].
    erewrite events_since_app by reflexivity.
    repeat split; [|done].
    apply elem_of_cons; right. apply elem_of_cons; by left.
  - destruct Hgen as [Hgen|Hgen]; [discriminate Hgen|].
    rewrite Hgen. cbn [negb].
    rewrite (get_attribution_method_default _ method _ a Hm) by done.
    rewrite Hok.
    eexists _, _, _, _. split; [reflexivity|].
    erewrite events_since_app
      by (simpl; rewrite <- app_assoc; reflexivity).
    repeat split; [|done].
    do 3 (apply elem_of_cons; right). apply elem_of_cons; by left.
Qed.

Lemma unhook_count_cons_same (a : FeatureAttribution)
    (l : list (@Event BatchEncoding)) :
  unhook_count a (EvUnhook a :: l) = S (unhook_count a l).
Proof.
  unfold unhook_count. rewrite filter_cons_True; [done|].
  simpl. by rewrite bool_decide_eq_true.
Qed.

Lemma unhook_count_cons_other (a : FeatureAttribution)
    (ev : @Event BatchEncoding) (l : list Event) :
  is_unhook_of a ev = false →
  unhook_count a (ev :: l) = unhook_count a l.
Proof.
  intros Hev. unfold unhook_count. rewrite filter_cons_False; [done|].
  by rewrite Hev.
Qed.

(** X19.  With a stored default [a] and a method name given, and no call
    refused for a repeated keyword, [attribute] runs the newly
    constructed method, not the default; [a] is unhooked exactly once;
    afterwards the stored default is the new method if the override flag
    was set and still [a] if not. *)
Theorem attribute_with_named_method (texts : TextInput)
    (reference_texts : option TextInput) (name : string)
    (override_default_attribution : bool)
    (attr_pos_start attr_pos_end : option Z) (kwargs : AttributeKwargs)
    (w : World) (a : FeatureAttribution) :
  texts_truthy texts = true →
  refs_compatible texts reference_texts →
  name ≠ "" →
  attribution_method w = Some a →
  let b := {| method_name := name; obj_id := next_obj w |} in
  refs_truthy (as_list <$> reference_texts) = true
  ∨ generation_call_ok kwargs = true →
  attribution_call_ok b (refs_truthy (as_list <$> reference_texts)) kwargs
  = true →
  ∃ src refs args w',
    attribute (Output := Output) texts reference_texts (Some name)
      override_default_attribution attr_pos_start attr_pos_end kwargs w
    = (Return (prepare_and_attribute_result b src refs attr_pos_start
                 attr_pos_end args), w')
    ∧ attribution_method w'
      = Some (if override_default_attribution then b else a)
    ∧ unhook_count a (events_since w w') = 1.
Proof.
  intros Ht Hc%format_ok_iff_compatible Hm%str_truthy_nonempty Hd b Hgen Hok.
  rewrite (attribute_run _ _ _ _ _ _ _ _ Ht Hc). cbv zeta.
  destruct (refs_truthy (as_list <$> reference_texts)) eqn:Hr;
    cbn [negb andb];
    [|destruct Hgen as [Hgen|Hgen]; [discriminate Hgen|];
      rewrite Hgen; cbn [negb]];
    destruct override_default_attribution.
  - rewrite (get_attribution_method_override w name a Hm Hd).
    fold b. rewrite Hok.
    eexists _, _, _, _. split; [reflexivity|]. split; [done|].
    erewrite events_since_app
      by (simpl; rewrite <- app_assoc; reflexivity).
    simpl. rewrite unhook_count_cons_same.
    by rewrite !unhook_count_cons_other by done.
  - rewrite (get_attribution_method_one_off w name a Hm Hd).
    fold b. rewrite Hok.
    eexists _, _, _, _. split; [reflexivity|]. split; [done|].
    erewrite events_since_app
      by (simpl; rewrite <- app_assoc; reflexivity).
    simpl. rewrite unhook_count_cons_same.
    by rewrite !unhook_count_cons_other by done.
  - rewrite get_attribution_method_override with (a := a) by done.
    simpl next_obj. fold b. rewrite Hok.
    eexists _, _, _, _. split; [reflexivity|]. split; [done|].
    erewrite events_since_app
      by (simpl; rewrite <- !app_assoc; reflexivity).
    simpl.
    rewrite !unhook_count_cons_other by done.
    rewrite unhook_count_cons_same.
    by rewrite !unhook_count_cons_other by done.
  - rewrite get_attribution_method_one_off with (a := a) by done.
    simpl next_obj. fold b. rewrite Hok.
    eexists _, _, _, _. split; [reflexivity|]. split; [done|].
    erewrite events_since_app
      by (simpl; rewrite <- !app_assoc; reflexivity).
    simpl.
    rewrite !unhook_count_cons_other by done.
    rewrite unhook_count_cons_same.
    by rewrite !unhook_count_cons_other by done.
Qed.

(** X20.  A non-empty string and the one-element list holding it are the
    same input: result, stored state and log of the call all agree. *)
Theorem attribute_string_is_singleton (text : string)
    (reference_texts : option TextInput) (method : option string)
    (override_default_attribution : bool)
    (attr_pos_start attr_pos_end : option Z) (kwargs : AttributeKwargs)
    (w : World) :
  text ≠ "" →
  attribute (Output := Output) (Single text) reference_texts method
    override_default_attribution attr_pos_start attr_pos_end kwargs w
  = attribute (Many [text]) reference_texts method
      override_default_attribution attr_pos_start attr_pos_end kwargs w.
Proof. apply attribute_single_as_singleton. Qed.

(** X21.  References are normalised before anything looks at them: one
    reference string is the same as the list holding it, and an empty
    list of references is the same as no references at all (they are then
    generated). *)
Theorem attribute_reference_normalisation (texts : TextInput)
    (ref : string) (method : option string)
    (override_default_attribution : bool)
    (attr_pos_start attr_pos_end : option Z) (kwargs : AttributeKwargs)
    (w : World) :
  attribute (Output := Output) texts (Some (Single ref)) method
    override_default_attribution attr_pos_start attr_pos_end kwargs w
  = attribute texts (Some (Many [ref])) method
      override_default_attribution attr_pos_start attr_pos_end kwargs w
  ∧ attribute (Output := Output) texts (Some (Many [])) method
      override_default_attribution attr_pos_start attr_pos_end kwargs w
    = attribute texts None method
        override_default_attribution attr_pos_start attr_pos_end kwargs w.
Proof.
  split; [reflexivity|].
  unfold attribute. destruct (texts_truthy texts); [|done].
  unfold format_input_texts, refs_truthy. simpl. py_run.
  unfold refs_truthy. reflexivity.
Qed.

(** *** [setup] and the constructor *)

(** [setup] never raises and only sets the device (the GPU when one
    is available, the CPU otherwise): the attribution method, the hook
    flag and the model are untouched, an object without a wrapped model
    makes no call, and a second [setup] changes no field. *)
Lemma setup_frame (cuda_is_available : bool)
    (kwargs kwargs' : gmap string PyVal) (w : World) :
  (setup cuda_is_available kwargs w).1 = Return ()
  ∧ attribution_method (setup cuda_is_available kwargs w).2
    = attribution_method w
  ∧ is_hooked (setup cuda_is_available kwargs w).2 = is_hooked w
  ∧ model (setup cuda_is_available kwargs w).2 = model w
  ∧ device (setup cuda_is_available kwargs w).2
    = Some (if cuda_is_available then Cuda0 else Cpu)
  ∧ events_since w (setup cuda_is_available kwargs w).2
    = match model w with
      | Some _ => [EvModelTo (if cuda_is_available then Cuda0 else Cpu);
                   EvModelEval; EvModelZeroGrad]
      | None => []
      end
  ∧ device (setup cuda_is_available kwargs'
              (setup cuda_is_available kwargs w).2).2
    = device (setup cuda_is_available kwargs w).2.
Proof.
  destruct w as [mdl cur hk dev n tr]. unfold setup.
  destruct mdl; py_run; repeat split.
  - unfold events_since. simpl. rewrite <- !app_assoc. simpl.
    by rewrite drop_app_length.
  - unfold events_since. simpl. by rewrite drop_all.
Qed.

(** X22.  Constructed with a method name, [__init__] succeeds: the stored
    method is a newly built object of that name, the device is set, and
    the construction of the method precedes [setup].  Whatever
    [attribution_method] the object held before is dropped without being
    unhooked. *)
Theorem init_with_method (cuda_is_available : bool) (name : string)
    (kwargs : gmap string PyVal) (w : World) :
  name ≠ "" →
  let b := {| method_name := name; obj_id := next_obj w |} in
  let d := if cuda_is_available then Cuda0 else Cpu in
  ∃ w',
    __init__ cuda_is_available (Some name) kwargs w = (Return (), w')
    ∧ attribution_method w' = Some b
    ∧ device w' = Some d
    ∧ events_since w w'
      = EvLoad b :: match model w with
                    | Some _ => [EvModelTo d; EvModelEval; EvModelZeroGrad]
                    | None => []
                    end.
Proof.
  intros Hm%str_truthy_nonempty b d. subst b d.
  destruct w as [mdl cur hk dev n tr].
  unfold __init__, get_attribution_method, setup. simpl. rewrite Hm.
  destruct mdl; py_run; eexists; (split; [reflexivity|]); simpl;
    repeat split; unfold events_since; simpl;
    rewrite <- ?app_assoc; simpl; by rewrite drop_app_length.
Qed.

End ModelProofs.

(** X23.  [load], and the static [AttributionModel.load] that forwards to
    it, hand the constructor every keyword argument except [from_hf]:
    that key never reaches the adapter, every other key arrives with its
    value. *)
Theorem load_forwards_other_kwargs (model_name_or_path : string)
    (attribution_method : option string) (kwargs : gmap string PyVal) :
  ∃ kwargs',
    (∀ (Adapter : Type)
       (HuggingfaceModel :
          string → option string → gmap string PyVal → Adapter),
       load HuggingfaceModel model_name_or_path attribution_method kwargs
       = HuggingfaceModel model_name_or_path attribution_method kwargs'
       ∧ AttributionModel_load HuggingfaceModel model_name_or_path
           attribution_method kwargs
         = HuggingfaceModel model_name_or_path attribution_method kwargs')
    ∧ ∀ key, kwargs' !! key
             = if decide (key = "from_hf") then None else kwargs !! key.
Proof.
  exists (delete "from_hf" kwargs). split.
  - intros Adapter HuggingfaceModel.
    unfold AttributionModel_load, load, dict_pop.
    by destruct (truthy _).
  - intros key. case_decide as Hk.
    + subst key. apply lookup_delete_eq.
    + by apply lookup_delete_ne.
Qed.

(** ** The claims at concrete inputs

    The sample adapter of [Sample] runs the methods; [with_saliency] is a
    model whose default method is [saliency], [bare] one without. *)

(** C1, as stated, fails: resolving a second method without override does
    call [unhook] on the stored default. *)
Lemma one_off_frame_refuted :
  ¬ claimed_one_off_frame Sample.with_saliency Sample.saliency
      "integrated_gradients".
Proof.
  unfold claimed_one_off_frame. vm_compute. intros (_ & _ & Hcount).
  discriminate Hcount.
Qed.

Lemma one_off_keeps_default_but_unhooks_it_witness :
  "integrated_gradients" ≠ ""
  ∧ attribution_method Sample.with_saliency = Some Sample.saliency
  ∧ ∃ b w',
      get_attribution_method (Some "integrated_gradients") false
        Sample.with_saliency = (Return b, w')
      ∧ method_name b = "integrated_gradients"
      ∧ obj_id b = next_obj Sample.with_saliency
      ∧ next_obj w' = S (next_obj Sample.with_saliency)
      ∧ (obj_id Sample.saliency < next_obj Sample.with_saliency
         → b ≠ Sample.saliency)
      ∧ attribution_method w' = Some Sample.saliency
      ∧ events_since Sample.with_saliency w' = [EvUnhook Sample.saliency; EvLoad b]
      ∧ unhook_count Sample.saliency (events_since Sample.with_saliency w') = 1.
Proof.
  split; [discriminate|]. split; [reflexivity|].
  apply (one_off_keeps_default_but_unhooks_it Sample.with_saliency
           "integrated_gradients" Sample.saliency);
    [discriminate | reflexivity].
Defined.

(** C3, as stated, fails: the empty string is a non-None method argument,
    yet it takes the no-method branch and nothing is unhooked. *)
Lemma unhook_first_refuted :
  ¬ claimed_unhook_first Sample.with_saliency Sample.saliency "" false.
Proof.
  unfold claimed_unhook_first. vm_compute. intros (evs & Hevs).
  discriminate Hevs.
Qed.

Lemma named_method_unhooks_default_first_witness :
  "occlusion" ≠ ""
  ∧ attribution_method Sample.with_saliency = Some Sample.saliency
  ∧ ∃ b,
      (get_attribution_method (Some "occlusion") true Sample.with_saliency).1
      = Return b
      ∧ events_since Sample.with_saliency
          (get_attribution_method (Some "occlusion") true
             Sample.with_saliency).2
        = [EvUnhook Sample.saliency; EvLoad b].
Proof.
  split; [discriminate|]. split; [reflexivity|].
  apply (named_method_unhooks_default_first Sample.with_saliency "occlusion"
           Sample.saliency true); [discriminate | reflexivity].
Defined.

Lemma override_replaces_default_and_unhooks_once_witness :
  "deeplift" ≠ ""
  ∧ attribution_method Sample.with_saliency = Some Sample.saliency
  ∧ ∃ b w',
      get_attribution_method (Some "deeplift") true Sample.with_saliency
      = (Return b, w')
      ∧ method_name b = "deeplift"
      ∧ obj_id b = next_obj Sample.with_saliency
      ∧ attribution_method w' = Some b
      ∧ unhook_count Sample.saliency (events_since Sample.with_saliency w') = 1.
Proof.
  split; [discriminate|]. split; [reflexivity|].
  apply (override_replaces_default_and_unhooks_once Sample.with_saliency
           "deeplift" Sample.saliency); [discriminate | reflexivity].
Defined.



(** C4, as stated, fails: the empty string normalises to a one-element
    sequence, two references are given, yet [attribute] returns the empty
    list instead of raising. *)
Lemma length_mismatch_iff_refuted :
  ¬ claimed_length_mismatch_iff (Output := Sample.Result)
      (Single "") (Some (Many ["x"; "y"])) None false (Some 1%Z) None
      Sample.no_kwargs Sample.with_saliency.
Proof.
  intros [_ Hraise].
  assert (is_length_mismatch
            (attribute (Output := Sample.Result) (Single "")
               (Some (Many ["x"; "y"])) None false (Some 1%Z) None
               Sample.no_kwargs Sample.with_saliency).1 = true) as Habs.
  { apply Hraise. exists (Many ["x"; "y"]). vm_compute. repeat split; lia. }
  vm_compute in Habs. discriminate Habs.
Qed.


(** C6, as stated, fails: with one text and two references the length
    check raises first. *)
Lemma missing_method_refuted :
  ¬ claimed_missing_method (Output := Sample.Result)
      (Many ["a"]) (Some (Many ["x"; "y"])) false (Some 1%Z) None
      Sample.no_kwargs Sample.bare.
Proof.
  intros Hclaim. specialize (Hclaim eq_refl eq_refl).
  vm_compute in Hclaim. discriminate Hclaim.
Qed.

Lemma attribute_without_method_raises_witness :
  refs_compatible (Many ["a"; "b"]) None
  ∧ texts_truthy (Many ["a"; "b"]) = true
  ∧ attribution_method Sample.bare = None
  ∧ (refs_truthy (as_list <$> None) = true
     ∨ generation_call_ok Sample.tuned_kwargs = true)
  ∧ (attribute (Output := Sample.Result) (Many ["a"; "b"]) None None false
       (Some 1%Z) None Sample.tuned_kwargs Sample.bare).1
    = Raise MissingAttributionMethodError.
Proof.
  assert (refs_compatible (Many ["a"; "b"]) None) as Hc by (intros r [=]).
  split; [exact Hc|]. split; [reflexivity|]. split; [reflexivity|].
  split; [right; reflexivity|].
  apply (attribute_without_method_raises (Output := Sample.Result)
           (Many ["a"; "b"]) None false (Some 1%Z) None
           Sample.tuned_kwargs Sample.bare Hc);
    [reflexivity | reflexivity | right; reflexivity].
Defined.

(** C8, as stated, fails: when the generation arguments repeat
    [return_generation_output], the call of [generate] is refused with a
    TypeError after [encode_texts] has run, and [generate] is never
    entered. *)
Lemma encode_then_generate_refuted :
  ¬ claimed_encode_then_generate (Output := Sample.Result) (Many ["a"]) None
      false (Some 1%Z) None Sample.clashing_kwargs Sample.with_saliency.
Proof.
  intros Hclaim. destruct (Hclaim eq_refl) as (flag & args & evs & Hevs).
  vm_compute in Hevs. discriminate Hevs.
Qed.

Lemma attribute_encodes_then_generates_witness :
  texts_truthy (Single "hello") = true
  ∧ generation_call_ok Sample.tuned_kwargs = true
  ∧ ∃ evs,
      events_since Sample.with_saliency
        (attribute (Output := Sample.Result) (Single "hello") None None false
           (Some 1%Z) None Sample.tuned_kwargs Sample.with_saliency).2
      = EvEncodeTexts ["hello"] true
        :: EvGenerate (["hello"], true) false {[ "max_length" := PyInt 8 ]}
        :: evs
      ∧ forallb (λ ev, negb (is_encode_or_generate ev)) evs = true
      ∧ ∀ b src refs s e args,
          EvPrepareAndAttribute b src refs s e args ∈ evs →
          src = SrcEncoding (["hello"], true) ∧ refs = ["hello!"].
Proof.
  split; [reflexivity|]. split; [reflexivity|].
  exact (attribute_encodes_then_generates (Output := Sample.Result)
           (Single "hello") None false (Some 1%Z) None Sample.tuned_kwargs
           Sample.with_saliency eq_refl eq_refl).
Defined.

(** Two concrete runs of [load]: with [from_hf=False] and without it the
    adapter is built from the same arguments. *)
Example load_from_hf_false :
  load (λ name method kwargs, (name, method, kwargs)) "gpt2" (Some "saliency")
       {[ "from_hf" := PyBool false ]}
  = ("gpt2", Some "saliency", ∅).
Proof. vm_compute. reflexivity. Qed.

Example attribute_refuses_repeated_keyword :
  attribute (Output := Sample.Result) (Many ["a"]) None None false
    (Some 1%Z) None Sample.clashing_kwargs Sample.with_saliency
  = (Raise TypeError, log [EvEncodeTexts ["a"] true] Sample.with_saliency).
Proof. reflexivity. Qed.

Example attribute_two_texts :
  (attribute (Output := Sample.Result) (Many ["a"; "b"]) None None false
     (Some 1%Z) None Sample.no_kwargs Sample.with_saliency).1
  = Return (Several [("a", "a!"); ("b", "b!")]).
Proof. reflexivity. Qed.

(** ** The further properties at concrete inputs *)

Lemma format_input_texts_balanced_witness :
  format_input_texts (Many ["a"; "b"]) (Some (Many ["x"; "y"]))
  = Return (["a"; "b"], Some ["x"; "y"])
  ∧ ["a"; "b"] = as_list (Many ["a"; "b"])
  ∧ Some ["x"; "y"] = as_list <$> Some (Many ["x"; "y"])
  ∧ ∀ l, Some ["x"; "y"] = Some l → l ≠ [] → length l = length ["a"; "b"].
Proof.
  split; [reflexivity|].
  exact (format_input_texts_balanced (Many ["a"; "b"])
           (Some (Many ["x"; "y"])) ["a"; "b"] (Some ["x"; "y"]) eq_refl).
Defined.

Lemma format_input_texts_idempotent_witness :
  format_input_texts (Single "a") (Some (Single "x"))
  = Return (["a"], Some ["x"])
  ∧ format_input_texts (Many ["a"]) (Many <$> Some ["x"])
    = Return (["a"], Some ["x"]).
Proof.
  split; [reflexivity|].
  exact (format_input_texts_idempotent (Single "a") (Some (Single "x"))
           ["a"] (Some ["x"]) eq_refl).
Defined.

Lemma get_attribution_method_result_or_one_off_witness :
  (get_attribution_method (Some "occlusion") false Sample.with_saliency).1
  = Return {| method_name := "occlusion"; obj_id := 1 |}
  ∧ (attribution_method
       (get_attribution_method (Some "occlusion") false
          Sample.with_saliency).2
     = Some {| method_name := "occlusion"; obj_id := 1 |}
     ∨ (false = false
        ∧ opt_str_truthy (Some "occlusion") = true
        ∧ is_Some (attribution_method Sample.with_saliency)
        ∧ attribution_method
            (get_attribution_method (Some "occlusion") false
               Sample.with_saliency).2
          = attribution_method Sample.with_saliency)).
Proof.
  split; [reflexivity|].
  exact (get_attribution_method_result_or_one_off (Some "occlusion") false
           Sample.with_saliency
           {| method_name := "occlusion"; obj_id := 1 |} eq_refl).
Defined.

Lemma get_attribution_method_keeps_default_witness :
  attribution_method Sample.with_saliency = Some Sample.saliency
  ∧ attribution_method
      (get_attribution_method (Some "occlusion") false
         Sample.with_saliency).2
    = Some Sample.saliency.
Proof.
  split; [reflexivity|].
  exact (get_attribution_method_keeps_default (Some "occlusion")
           Sample.with_saliency Sample.saliency eq_refl).
Defined.

Lemma get_attribution_method_first_becomes_default_witness :
  "saliency" ≠ ""
  ∧ attribution_method Sample.bare = None
  ∧ ∃ b,
      (get_attribution_method (Some "saliency") false Sample.bare).1
      = Return b
      ∧ method_name b = "saliency"
      ∧ attribution_method
          (get_attribution_method (Some "saliency") false Sample.bare).2
        = Some b
      ∧ events_since Sample.bare
          (get_attribution_method (Some "saliency") false Sample.bare).2
        = [EvLoad b].
Proof.
  split; [discriminate|]. split; [reflexivity|].
  apply (get_attribution_method_first_becomes_default Sample.bare
           "saliency" false); [discriminate | reflexivity].
Defined.

Lemma get_attribution_method_twice_witness :
  "saliency" ≠ ""
  ∧ "saliency" ≠ ""
  ∧ attribution_method Sample.bare = None
  ∧ ∃ a b w',
      (first ← get_attribution_method (Some "saliency") false;
       second ← get_attribution_method (Some "saliency") true;
       mret (first, second)) Sample.bare
      = (Return (a, b), w')
      ∧ method_name a = "saliency"
      ∧ method_name b = "saliency"
      ∧ a ≠ b
      ∧ attribution_method w' = Some b
      ∧ events_since Sample.bare w' = [EvLoad a; EvUnhook a; EvLoad b].
Proof.
  split; [discriminate|]. split; [discriminate|]. split; [reflexivity|].
  apply (get_attribution_method_twice Sample.bare "saliency" "saliency"
           false true); [discriminate | discriminate | reflexivity].
Defined.

Lemma get_attribution_method_stored_then_default_witness :
  "occlusion" ≠ ""
  ∧ (true = true ∨ attribution_method Sample.with_saliency = None)
  ∧ ∃ b w1,
      get_attribution_method (Some "occlusion") true Sample.with_saliency
      = (Return b, w1)
      ∧ get_attribution_method None false w1 = (Return b, w1).
Proof.
  split; [discriminate|]. split; [left; reflexivity|].
  apply (get_attribution_method_stored_then_default Sample.with_saliency
           "occlusion" true false); [discriminate | left; reflexivity].
Defined.

Lemma attribute_length_mismatch_is_atomic_witness :
  is_length_mismatch
    (attribute (Output := Sample.Result) (Many ["a"])
       (Some (Many ["x"; "y"])) (Some "occlusion") true (Some 1%Z) None
       Sample.no_kwargs Sample.with_saliency).1
  = true
  ∧ (attribute (Output := Sample.Result) (Many ["a"])
       (Some (Many ["x"; "y"])) (Some "occlusion") true (Some 1%Z) None
       Sample.no_kwargs Sample.with_saliency).2
    = Sample.with_saliency.
Proof.
  split; [reflexivity|].
  exact (attribute_length_mismatch_is_atomic (Output := Sample.Result)
           (Many ["a"]) (Some (Many ["x"; "y"])) (Some "occlusion") true
           (Some 1%Z) None Sample.no_kwargs Sample.with_saliency eq_refl).
Defined.

Lemma attribute_missing_method_after_generation_witness :
  texts_truthy (Many ["a"]) = true
  ∧ refs_compatible (Many ["a"]) None
  ∧ (refs_truthy (as_list <$> None) = true
     ∨ generation_call_ok Sample.tuned_kwargs = true)
  ∧ opt_str_truthy (Some "") = false
  ∧ attribution_method Sample.bare = None
  ∧ attribute (Output := Sample.Result) (Many ["a"]) None (Some "") false
      (Some 1%Z) None Sample.tuned_kwargs Sample.bare
    = (Raise MissingAttributionMethodError,
       log [EvEncodeTexts ["a"] true;
            EvGenerate (["a"], true) false {[ "max_length" := PyInt 8 ]}]
           Sample.bare).
Proof.
  assert (refs_compatible (Many ["a"]) None) as Hc by (intros r [=]).
  split; [reflexivity|]. split; [exact Hc|]. split; [right; reflexivity|].
  split; [reflexivity|]. split; [reflexivity|].
  exact (attribute_missing_method_after_generation (Output := Sample.Result)
           (Many ["a"]) None (Some "") false (Some 1%Z) None
           Sample.tuned_kwargs Sample.bare eq_refl Hc
           (or_intror eq_refl) eq_refl eq_refl).
Defined.

Lemma attribute_given_references_skip_generation_witness :
  as_list (Single "x") ≠ []
  ∧ forallb (λ ev, negb (is_encode_or_generate ev))
      (events_since Sample.with_saliency
         (attribute (Output := Sample.Result) (Single "a")
            (Some (Single "x")) None false (Some 1%Z) None
            Sample.tuned_kwargs Sample.with_saliency).2)
    = true
  ∧ ∀ b src refs s e args,
      EvPrepareAndAttribute b src refs s e args
      ∈ events_since Sample.with_saliency
          (attribute (Output := Sample.Result) (Single "a")
             (Some (Single "x")) None false (Some 1%Z) None
             Sample.tuned_kwargs Sample.with_saliency).2 →
      src = SrcTexts (as_list (Single "a")) ∧ refs = as_list (Single "x").
Proof.
  split; [discriminate|].
  apply (attribute_given_references_skip_generation
           (Output := Sample.Result) (Single "a") (Single "x") None false
           (Some 1%Z) None Sample.tuned_kwargs Sample.with_saliency).
  discriminate.
Defined.

Lemma attribute_arguments_merge_witness :
  EvPrepareAndAttribute Sample.saliency (SrcTexts ["a"]) ["x"] (Some 1%Z) None
    (dict_update {[ "n_steps" := PyInt 50 ]} {[ "n_steps" := PyInt 20 ]})
  ∈ events_since Sample.with_saliency
      (attribute (Output := Sample.Result) (Many ["a"]) (Some (Many ["x"]))
         None false (Some 1%Z) None Sample.tuned_kwargs
         Sample.with_saliency).2
  ∧ ∃ kw,
      EvGetAttributionArgs Sample.saliency kw
      ∈ events_since Sample.with_saliency
          (attribute (Output := Sample.Result) (Many ["a"])
             (Some (Many ["x"])) None false (Some 1%Z) None
             Sample.tuned_kwargs Sample.with_saliency).2
      ∧ ∀ key,
          dict_update {[ "n_steps" := PyInt 50 ]} {[ "n_steps" := PyInt 20 ]}
            !! key
          = match get_attribution_args_result Sample.saliency kw !! key with
            | Some v => Some v
            | None =>
                default ∅ (attribution_args Sample.tuned_kwargs) !! key
            end.
Proof.
  assert (EvPrepareAndAttribute Sample.saliency (SrcTexts ["a"]) ["x"]
            (Some 1%Z) None
            (dict_update {[ "n_steps" := PyInt 50 ]}
                         {[ "n_steps" := PyInt 20 ]})
          ∈ events_since Sample.with_saliency
              (attribute (Output := Sample.Result) (Many ["a"])
                 (Some (Many ["x"])) None false (Some 1%Z) None
                 Sample.tuned_kwargs Sample.with_saliency).2) as Hin.
  { vm_compute. repeat constructor. }
  split; [exact Hin|].
  exact (attribute_arguments_merge (Output := Sample.Result) (Many ["a"])
           (Some (Many ["x"])) None false (Some 1%Z) None Sample.tuned_kwargs
           Sample.with_saliency _ _ _ _ _ _ Hin).
Defined.

Lemma attribute_forwarded_kwargs_witness :
  EvGetAttributionArgs Sample.saliency
    {| generation_args := None; attribution_args := None;
       other_kwargs := {[ "n_steps" := PyInt 20 ]} |}
  ∈ events_since Sample.with_saliency
      (attribute (Output := Sample.Result) (Many ["a"]) None None false
         (Some 1%Z) None Sample.tuned_kwargs Sample.with_saliency).2
  ∧ attribution_args
      {| generation_args := None; attribution_args := None;
         other_kwargs := {[ "n_steps" := PyInt 20 ]} |} = None
  ∧ other_kwargs
      {| generation_args := None; attribution_args := None;
         other_kwargs := {[ "n_steps" := PyInt 20 ]} |}
    = other_kwargs Sample.tuned_kwargs
  ∧ generation_args
      {| generation_args := None; attribution_args := None;
         other_kwargs := {[ "n_steps" := PyInt 20 ]} |}
    = if refs_truthy (as_list <$> None)
      then generation_args Sample.tuned_kwargs else None.
Proof.
  assert (EvGetAttributionArgs Sample.saliency
            {| generation_args := None; attribution_args := None;
               other_kwargs := {[ "n_steps" := PyInt 20 ]} |}
          ∈ events_since Sample.with_saliency
              (attribute (Output := Sample.Result) (Many ["a"]) None None
                 false (Some 1%Z) None Sample.tuned_kwargs
                 Sample.with_saliency).2) as Hin.
  { vm_compute. repeat constructor. }
  split; [exact Hin|].
  exact (attribute_forwarded_kwargs (Output := Sample.Result) (Many ["a"])
           None None false (Some 1%Z) None Sample.tuned_kwargs
           Sample.with_saliency _ _ Hin).
Defined.

Lemma attribute_uses_stored_default_witness :
  texts_truthy (Single "hello") = true
  ∧ refs_compatible (Single "hello") None
  ∧ (refs_truthy (as_list <$> None) = true
     ∨ generation_call_ok Sample.tuned_kwargs = true)
  ∧ attribution_call_ok Sample.saliency (refs_truthy (as_list <$> None))
      Sample.tuned_kwargs = true
  ∧ opt_str_truthy None = false
  ∧ attribution_method Sample.with_saliency = Some Sample.saliency
  ∧ ∃ src refs args w',
      attribute (Output := Sample.Result) (Single "hello") None None true
        (Some 1%Z) None Sample.tuned_kwargs Sample.with_saliency
      = (Return (prepare_and_attribute_result Sample.saliency src refs
                   (Some 1%Z) None args), w')
      ∧ EvPrepareAndAttribute Sample.saliency src refs (Some 1%Z) None args
        ∈ events_since Sample.with_saliency w'
      ∧ attribution_method w' = Some Sample.saliency
      ∧ next_obj w' = next_obj Sample.with_saliency
      ∧ forallb (λ ev, negb (is_unhook_or_load ev))
          (events_since Sample.with_saliency w') = true.
Proof.
  assert (refs_compatible (Single "hello") None) as Hc by (intros r [=]).
  split; [reflexivity|]. split; [exact Hc|]. split; [right; reflexivity|].
  split; [reflexivity|]. split; [reflexivity|]. split; [reflexivity|].
  exact (attribute_uses_stored_default (Output := Sample.Result)
           (Single "hello") None None true (Some 1%Z) None
           Sample.tuned_kwargs Sample.with_saliency Sample.saliency eq_refl
           Hc (or_intror eq_refl) eq_refl eq_refl eq_refl).
Defined.

Lemma attribute_with_named_method_witness :
  texts_truthy (Many ["a"; "b"]) = true
  ∧ refs_compatible (Many ["a"; "b"]) (Some (Many ["x"; "y"]))
  ∧ "occlusion" ≠ ""
  ∧ attribution_method Sample.with_saliency = Some Sample.saliency
  ∧ (refs_truthy (as_list <$> Some (Many ["x"; "y"])) = true
     ∨ generation_call_ok Sample.tuned_kwargs = true)
  ∧ attribution_call_ok {| method_name := "occlusion"; obj_id := 1 |}
      (refs_truthy (as_list <$> Some (Many ["x"; "y"])))
      Sample.tuned_kwargs = true
  ∧ ∃ src refs args w',
      attribute (Output := Sample.Result) (Many ["a"; "b"])
        (Some (Many ["x"; "y"])) (Some "occlusion") false (Some 1%Z) None
        Sample.tuned_kwargs Sample.with_saliency
      = (Return (prepare_and_attribute_result
                   {| method_name := "occlusion"; obj_id := 1 |}
                   src refs (Some 1%Z) None args), w')
      ∧ attribution_method w' = Some Sample.saliency
      ∧ unhook_count Sample.saliency (events_since Sample.with_saliency w')
        = 1.
Proof.
  assert (refs_compatible (Many ["a"; "b"]) (Some (Many ["x"; "y"]))) as Hc.
  { intros r [= <-]. right. reflexivity. }
  split; [reflexivity|]. split; [exact Hc|]. split; [discriminate|].
  split; [reflexivity|]. split; [left; reflexivity|].
  split; [reflexivity|].
  apply (attribute_with_named_method (Output := Sample.Result)
           (Many ["a"; "b"]) (Some (Many ["x"; "y"])) "occlusion" false
           (Some 1%Z) None Sample.tuned_kwargs Sample.with_saliency
           Sample.saliency eq_refl Hc);
    [discriminate | reflexivity | left; reflexivity | reflexivity].
Defined.

Lemma attribute_string_is_singleton_witness :
  "hello" ≠ ""
  ∧ attribute (Output := Sample.Result) (Single "hello") None None false
      (Some 1%Z) None Sample.no_kwargs Sample.with_saliency
    = attribute (Many ["hello"]) None None false (Some 1%Z) None
        Sample.no_kwargs Sample.with_saliency.
Proof.
  split; [discriminate|].
  apply (attribute_string_is_singleton (Output := Sample.Result) "hello"
           None None false (Some 1%Z) None Sample.no_kwargs
           Sample.with_saliency).
  discriminate.
Defined.

Lemma init_with_method_witness :
  "saliency" ≠ ""
  ∧ ∃ w',
      __init__ true (Some "saliency") ∅ Sample.with_saliency = (Return (), w')
      ∧ attribution_method w' = Some {| method_name := "saliency"; obj_id := 1 |}
      ∧ device w' = Some Cuda0
      ∧ events_since Sample.with_saliency w'
        = [EvLoad {| method_name := "saliency"; obj_id := 1 |};
           EvModelTo Cuda0; EvModelEval; EvModelZeroGrad].
Proof.
  split; [discriminate|].
  apply (init_with_method true "saliency" ∅ Sample.with_saliency).
  discriminate.
Defined.
